(** * FlowRAG: chunking, indexing and ranking of [App.py]

    A shallow embedding of [FlowRAGSystem] (the PDF chunker, the index
    build and the search loop) together with the two Gradio callbacks
    [search_query] and [update_status], and the properties of the design
    document that can be stated about them.

    Conventions.
    - Python [int] is [Z]; [len] returns a [Z].
    - Python [str] is [string]; whitespace is the ASCII part of what
      [str.isspace] accepts.
    - Similarity scores are the rationals the floating-point values
      denote ([Q]); not-a-number is outside the model.
    - [None] is [None]: every attribute of [FlowRAGSystem] that starts
      as [None] is an [option].
    - An external call that may raise returns a [result]. *)

From Stdlib Require Import ZArith List String Ascii Bool Lia QArith Sorted Permutation.
Import ListNotations.

Open Scope string_scope.
Open Scope list_scope.
Open Scope Z_scope.

(** ** Python built-ins used by the source *)

Module Py.

Definition len {A : Type} (l : list A) : Z := Z.of_nat (List.length l).

(** Truth value of a list ([if chunk_words:], [if not pages_data:]). *)
Definition truthy {A : Type} (l : list A) : bool :=
  match l with [] => false | _ :: _ => true end.

(** Normalisation of one slice bound against a sequence of length [n]:
    a negative bound counts from the end, and the result is clipped
    to [0..n]. *)
Definition bound (n i : Z) : Z :=
  if i <? 0 then Z.max (i + n) 0 else Z.min i n.

(** [l[a:b]] *)
Definition slice {A : Type} (l : list A) (a b : Z) : list A :=
  let lo := bound (len l) a in
  let hi := bound (len l) b in
  firstn (Z.to_nat (hi - lo)) (skipn (Z.to_nat lo) l).

(** [str.isspace] on the ASCII range: TAB..CR, FS..US and SPACE. *)
Definition isspace (c : ascii) : bool :=
  let n := Z.of_nat (nat_of_ascii c) in
  ((9 <=? n) && (n <=? 13)) || ((28 <=? n) && (n <=? 31)) || (n =? 32).

Fixpoint lstrip (s : string) : string :=
  match s with
  | EmptyString => EmptyString
  | String c s' => if isspace c then lstrip s' else s
  end.

Fixpoint rstrip (s : string) : string :=
  match s with
  | EmptyString => EmptyString
  | String c s' =>
      match rstrip s' with
      | EmptyString => if isspace c then EmptyString else String c EmptyString
      | r => String c r
      end
  end.

(** [s.strip()] *)
Definition strip (s : string) : string := rstrip (lstrip s).

(** Truth value of a string ([if not question:], [text and ...]). *)
Definition nonempty (s : string) : bool :=
  match s with EmptyString => false | String _ _ => true end.

(** [s.split()] with no separator: maximal runs of non-whitespace.
    [word] is the run being read. *)
Fixpoint split_from (word : string) (s : string) : list string :=
  match s with
  | EmptyString => if nonempty word then [word] else []
  | String c s' =>
      if isspace c
      then (if nonempty word then word :: split_from EmptyString s'
            else split_from EmptyString s')
      else split_from (word ++ String c EmptyString)%string s'
  end.

Definition split (s : string) : list string := split_from EmptyString s.

(** [enumerate(l)], counting from [i]. *)
Fixpoint enumerate {A : Type} (i : Z) (l : list A) : list (Z * A) :=
  match l with
  | [] => []
  | x :: l' => (i, x) :: enumerate (i + 1) l'
  end.

(** [sep.join(ws)] *)
Definition join (sep : string) (ws : list string) : string := String.concat sep ws.

(** [s[:n]] for [n >= 0] *)
Definition prefix (n : nat) (s : string) : string := String.substring 0 n s.

End Py.

(** ** The chunker (the [while] loop of [process_pdf]) *)

(** One entry of [self.chunks]. *)
Record chunk : Type := mkChunk {
  text : string;
  page : Z;
  word_count : Z
}.

Definition chunk_size : Z := 200.
Definition overlap : Z := 40.

Section Chunker.

(** The two constants of the loop, as parameters: the source fixes
    them to [chunk_size] and [overlap]. *)
Variables (size ovl : Z).

(** The dictionary appended for one window. *)
Definition make_chunk (page_no : Z) (chunk_words : list string) : chunk :=
  mkChunk (Py.join " " chunk_words) page_no (Py.len chunk_words).

(** The [while start < len(words)] loop.  [fuel] bounds the number of
    times the body runs; the flag tells whether the loop test became
    false (the loop was left) or the fuel ran out first.  [chunks] is
    [self.chunks], which the body appends to. *)
Fixpoint chunk_loop (fuel : nat) (page_no : Z) (words : list string)
         (start : Z) (chunks : list chunk) : list chunk * bool :=
  if start <? Py.len words then
    match fuel with
    | O => (chunks, false)
    | S fuel' =>
        let end_ := start + size in
        let chunk_words := Py.slice words start end_ in
        let chunks' :=
          if Py.truthy chunk_words
          then chunks ++ [make_chunk page_no chunk_words]
          else chunks in
        chunk_loop fuel' page_no words (start + (size - ovl)) chunks'
    end
  else (chunks, true).

(** The window that starts at [start], as the claim writes it. *)
Definition window (words : list string) (start : Z) : list string :=
  Py.slice words start (start + size).

(** Number of starts [start, start + stride, ...] below [L]. *)
Definition n_windows (L start : Z) : nat :=
  Z.to_nat ((L - start + (size - ovl) - 1) / (size - ovl)).

(** The windows of the starts [start, start + stride, ...] below
    [len(words)], in order. *)
Definition windows_from (words : list string) (start : Z) : list (list string) :=
  map (fun j => window words (start + Z.of_nat j * (size - ovl)))
      (seq 0 (n_windows (Py.len words) start)).

End Chunker.

(** The body of [for page in pages_data] on one page's words, with the
    constants of the source.  The loop body runs at most once per word. *)
Definition chunk_words (chunks : list chunk) (page_no : Z) (words : list string)
  : list chunk :=
  fst (chunk_loop chunk_size overlap (List.length words) page_no words 0 chunks).

(** The chunks of one page on their own. *)
Definition page_chunks (page_no : Z) (words : list string) : list chunk :=
  chunk_words [] page_no words.

(** The word windows of one page, by window index: window [j] starts at
    [j * (chunk_size - overlap)]. *)
Definition page_windows (words : list string) : list (list string) :=
  map (fun j => window chunk_size words (Z.of_nat j * (chunk_size - overlap)))
      (seq 0 (n_windows chunk_size overlap (Py.len words) 0)).

(** One entry of [pages_data]. *)
Record page_entry : Type := mkPage {
  page_no : Z;
  page_text : string
}.

(** [self.chunks = []] followed by [for page in pages_data: ...]. *)
Definition chunk_pages (pages_data : list page_entry) : list chunk :=
  fold_left
    (fun chunks p => chunk_words chunks (page_no p) (Py.split (page_text p)))
    pages_data [].

(** ** External collaborators *)

(** Outcome of a call that may raise: the value, or [str(e)]. *)
Inductive result (A : Type) : Type :=
| Ok (a : A)
| Raise (e : string).

Arguments Ok {A} a.
Arguments Raise {A} e.

(** A two-dimensional array of floats; [shape1] is [shape[1]]. *)
Record ndarray : Type := mkArray {
  shape1 : Z;
  rows : list (list Q)
}.

(** A loaded sentence-embedding model, seen through the one method the
    source calls: [encode(texts, normalize_embeddings=True)]. *)
Definition SentenceTransformer : Type := list string -> result ndarray.

(** The object handed to [process_pdf]: the method body reads its
    attribute [name] and calls [read()]. *)
Record UploadedFile : Type := mkUpload {
  name : string;
  read : string
}.

Module VectorIndex.

(** Modelled from the spec: the exact inner-product index
    ([faiss.IndexFlatIP]) is a library the source calls and is not in
    the repository; an index is its dimension and its stored rows. *)
Record t : Type := mk {
  d : Z;
  xb : list (list Q)
}.

(** Modelled from the spec: [faiss.IndexFlatIP(dimension)], an index
    with no rows. *)
Definition IndexFlatIP (dimension : Z) : t := mk dimension [].

(** Modelled from the spec: [index.add(embeddings)] stores the rows
    after those already present. *)
Definition add (ix : t) (embeddings : ndarray) : t :=
  mk (d ix) (xb ix ++ rows embeddings).

(** Modelled from the spec: [index.ntotal], the number of rows. *)
Definition ntotal (ix : t) : Z := Py.len (xb ix).

(** Modelled from the spec: the score of a row is its inner product
    with the query. *)
Fixpoint inner (u v : list Q) : Q :=
  match u, v with
  | a :: u', b :: v' => (a * b + inner u' v')%Q
  | _, _ => 0%Q
  end.

(** Modelled from the spec: every stored row with its score and its
    row index, in row order from [row_index]. *)
Fixpoint scored (query : list Q) (row_index : Z) (stored : list (list Q))
  : list (Q * Z) :=
  match stored with
  | [] => []
  | r :: stored' => (inner query r, row_index) :: scored query (row_index + 1) stored'
  end.

(** Modelled from the spec: [x] is ranked no later than [y]: higher
    score first, ties by ascending row index. *)
Definition ranks_before (x y : Q * Z) : bool :=
  negb (Qle_bool (fst x) (fst y))
  || (Qeq_bool (fst x) (fst y) && (snd x <=? snd y)).

(** Modelled from the spec: [x] put at its rank in a ranked list. *)
Fixpoint insert (x : Q * Z) (l : list (Q * Z)) : list (Q * Z) :=
  match l with
  | [] => [x]
  | y :: l' => if ranks_before x y then x :: l else y :: insert x l'
  end.

(** Modelled from the spec: the scored rows in ranking order. *)
Definition sort (l : list (Q * Z)) : list (Q * Z) := fold_right insert [] l.

(** Modelled from the spec: [search(query, k)] is the [min(k, N)] best
    rows, descending by score, ties by ascending row index; [k <= 0]
    gives the empty result. *)
Definition search (ix : t) (query : list Q) (k : Z) : list (Q * Z) :=
  firstn (Z.to_nat k) (sort (scored query 0 (xb ix))).

End VectorIndex.

(** ** The system object *)

Record FlowRAGSystem : Type := mkSystem {
  model : option SentenceTransformer;
  index : option VectorIndex.t;
  chunks : option (list chunk);
  current_file : option string;
  is_ready : bool
}.

(** [FlowRAGSystem()] *)
Definition new_system : FlowRAGSystem := mkSystem None None None None false.

Definition set_model (self : FlowRAGSystem) (m : SentenceTransformer) : FlowRAGSystem :=
  mkSystem (Some m) (index self) (chunks self) (current_file self) (is_ready self).

Definition set_index (self : FlowRAGSystem) (ix : VectorIndex.t) : FlowRAGSystem :=
  mkSystem (model self) (Some ix) (chunks self) (current_file self) (is_ready self).

Definition set_chunks (self : FlowRAGSystem) (cs : list chunk) : FlowRAGSystem :=
  mkSystem (model self) (index self) (Some cs) (current_file self) (is_ready self).

Definition set_current_file (self : FlowRAGSystem) (f : string) : FlowRAGSystem :=
  mkSystem (model self) (index self) (chunks self) (Some f) (is_ready self).

Definition set_is_ready (self : FlowRAGSystem) (b : bool) : FlowRAGSystem :=
  mkSystem (model self) (index self) (chunks self) (current_file self) b.

(** What [initialize] returns: [True], or the load-error message. *)
Inductive init_outcome : Type :=
| InitOk
| InitError (e : string).

(** [initialize]; [load] is the outcome of constructing the model. *)
Definition initialize (load : result SentenceTransformer) (self : FlowRAGSystem)
  : FlowRAGSystem * init_outcome :=
  match load with
  | Ok m => (set_is_ready (set_model self m) true, InitOk)
  | Raise e => (self, InitError e)
  end.

(** The four messages [process_pdf] can return. *)
Inductive process_outcome : Type :=
| NoTextFound                       (* no text was found in the file *)
| NoChunksCreated                   (* no text parts were created *)
| PdfError (e : string)             (* error while processing the PDF: e *)
| Processed (n_pages n_chunks : Z). (* processed: n_pages pages, n_chunks parts *)

Definition is_failure (o : process_outcome) : bool :=
  match o with Processed _ _ => false | _ => true end.

(** The loop over [enumerate(reader.pages)]: a page is kept when its
    extracted text is not [None], not empty and not blank. *)
Fixpoint collect_pages (i : Z) (pages : list (option string)) : list page_entry :=
  match pages with
  | [] => []
  | extracted :: pages' =>
      let rest := collect_pages (i + 1) pages' in
      match extracted with
      | Some t =>
          if Py.nonempty t && Py.nonempty (Py.strip t)
          then mkPage (i + 1) (Py.strip t) :: rest
          else rest
      | None => rest
      end
  end.

(** The label and colour chosen for a similarity score. *)
Inductive sim_label : Type :=
| Excellent   (* first branch *)
| Good        (* second branch *)
| Weak.       (* last branch *)

(** The values interpolated into the markup of one result. *)
Record result_card : Type := mkCard {
  rank : Z;
  score : Q;
  sim_color : string;
  sim_text : sim_label;
  card_page : Z;
  card_word_count : Z;
  excerpt : string
}.

(** What [search] and [search_query] can return. *)
Inductive search_output : Type :=
| EnterQuestion                               (* please enter a question *)
| NotReady                                    (* please process a document first *)
| SearchError (e : string)                    (* error while searching: e *)
| NoResults                                   (* found nothing relevant *)
| Found (n : Z) (results : list result_card). (* found n results, then the cards *)

(** Calls made to the embedder and to the index during a query. *)
Inductive call : Type :=
| CallEncode (texts : list string)
| CallIndexSearch (k : Z).

(** The [if]/[elif]/[else] on [similarity_score]. *)
Definition similarity (similarity_score : Q) : string * sim_label :=
  if Qle_bool (1 # 2) similarity_score then ("#28a745", Excellent)
  else if Qle_bool (3 # 10) similarity_score then ("#ffc107", Good)
  else ("#dc3545", Weak).

(** The guard [0 <= idx < len(self.chunks)]. *)
Definition in_range (cs : list chunk) (idx : Z) : bool :=
  (0 <=? idx) && (idx <? Py.len cs).

Definition no_chunk : chunk := mkChunk "" 0 0.

(** [self.chunks[idx]] for an index that passed the guard. *)
Definition chunk_at (cs : list chunk) (idx : Z) : chunk :=
  nth (Z.to_nat idx) cs no_chunk.

(** The card appended for position [i], score [s] and row [idx]. *)
Definition make_card (cs : list chunk) (i : Z) (s : Q) (idx : Z) : result_card :=
  let c := chunk_at cs idx in
  mkCard (i + 1) s (fst (similarity s)) (snd (similarity s))
         (page c) (word_count c) (Py.prefix 400 (text c)).

(** [for i, (score, idx) in enumerate(zip(scores[0], indices[0]))] *)
Fixpoint search_loop (cs : list chunk) (i : Z) (hits : list (Q * Z))
         (results : list result_card) : list result_card :=
  match hits with
  | [] => results
  | (s, idx) :: hits' =>
      if in_range cs idx
      then search_loop cs (i + 1) hits' (results ++ [make_card cs i s idx])
      else search_loop cs (i + 1) hits' results
  end.

(** The status line: which of its three parts are shown. *)
Inductive status : Type :=
| NoDocumentYet
| FileOnly (file : string)
| FileChunks (file : string) (n_chunks : Z)
| FileChunksVectors (file : string) (n_chunks n_vectors : Z).

Definition update_status (rag_system : FlowRAGSystem) : status :=
  match current_file rag_system with
  | None => NoDocumentYet
  | Some f =>
      if Py.nonempty f then
        match chunks rag_system with
        | None => FileOnly f
        | Some cs =>
            if Py.truthy cs then
              match index rag_system with
              | None => FileChunks f (Py.len cs)
              | Some ix => FileChunksVectors f (Py.len cs) (VectorIndex.ntotal ix)
              end
            else FileOnly f
        end
      else NoDocumentYet
  end.

(** The calls [process_pdf] makes outside the program; each may raise. *)
Record Externals : Type := mkExternals {
  (* [PdfReader(path).pages] with [extract_text()] applied to every page,
     on the bytes written to the temporary file *)
  PdfReader : string -> result (list (option string));
  (* [faiss.normalize_L2], which rescales every row to unit length *)
  normalize_L2 : ndarray -> result ndarray;
  (* whether [index.add] raises on these arguments, and with what *)
  index_add_raises : VectorIndex.t -> ndarray -> option string;
  (* [os.unlink] of the temporary file that holds these bytes *)
  unlink : string -> result unit
}.

(** [index.add(embeddings)]: it raises, or the rows are stored. *)
Definition index_add (ext : Externals) (ix : VectorIndex.t) (embeddings : ndarray)
  : result VectorIndex.t :=
  match index_add_raises ext ix embeddings with
  | Some e => Raise e
  | None => Ok (VectorIndex.add ix embeddings)
  end.

Section External.

Variable ext : Externals.

Definition process_pdf (self : FlowRAGSystem) (pdf_file : UploadedFile)
  : FlowRAGSystem * process_outcome :=
  let self := set_current_file self (name pdf_file) in
  match PdfReader ext (read pdf_file) with
  | Raise e => (self, PdfError e)
  | Ok pages =>
      let pages_data := collect_pages 0 pages in
      if negb (Py.truthy pages_data) then
        match unlink ext (read pdf_file) with
        | Raise e => (self, PdfError e)
        | Ok _ => (self, NoTextFound)
        end
      else
        let self := set_chunks self (chunk_pages pages_data) in
        let cs := chunk_pages pages_data in
        if Py.len cs >? 0 then
          match model self with
          | None => (self, PdfError "'NoneType' object has no attribute 'encode'")
          | Some encode =>
              match encode (map text cs) with
              | Raise e => (self, PdfError e)
              | Ok embeddings =>
                  let dimension := shape1 embeddings in
                  let self := set_index self (VectorIndex.IndexFlatIP dimension) in
                  match normalize_L2 ext embeddings with
                  | Raise e => (self, PdfError e)
                  | Ok embeddings =>
                      match index_add ext (VectorIndex.IndexFlatIP dimension) embeddings with
                      | Raise e => (self, PdfError e)
                      | Ok ix =>
                          let self := set_index self ix in
                          match unlink ext (read pdf_file) with
                          | Raise e => (self, PdfError e)
                          | Ok _ => (self, Processed (Py.len pages_data) (Py.len cs))
                          end
                      end
                  end
              end
          end
        else
          match unlink ext (read pdf_file) with
          | Raise e => (self, PdfError e)
          | Ok _ => (self, NoChunksCreated)
          end
  end.

(** [process_file], the click handler. *)
Definition process_file (rag_system : FlowRAGSystem) (file : option UploadedFile)
  : FlowRAGSystem * option process_outcome :=
  match file with
  | None => (rag_system, None)
  | Some f => let (s, o) := process_pdf rag_system f in (s, Some o)
  end.

(** A sequence of [process_pdf] calls on the one system object. *)
Fixpoint process_all (self : FlowRAGSystem) (files : list UploadedFile)
  : FlowRAGSystem * list process_outcome :=
  match files with
  | [] => (self, [])
  | f :: files' =>
      let (self', o) := process_pdf self f in
      let (self'', os) := process_all self' files' in
      (self'', o :: os)
  end.

End External.

(** [search]: the returned value and the external calls it made. *)
Definition search (self : FlowRAGSystem) (query : string) (top_k : Z)
  : search_output * list call :=
  match is_ready self, index self with
  | true, Some ix =>
      match model self with
      | None => (SearchError "'NoneType' object has no attribute 'encode'", [])
      | Some encode =>
          match encode [query] with
          | Raise e => (SearchError e, [CallEncode [query]])
          | Ok query_embedding =>
              let hits := VectorIndex.search ix (hd [] (rows query_embedding)) top_k in
              let calls := [CallEncode [query]; CallIndexSearch top_k] in
              match chunks self with
              | None =>
                  match hits with
                  | [] => (NoResults, calls)
                  | _ :: _ => (SearchError "object of type 'NoneType' has no len()", calls)
                  end
              | Some cs =>
                  let results := search_loop cs 0 hits [] in
                  if Py.truthy results
                  then (Found (Py.len results) results, calls)
                  else (NoResults, calls)
              end
          end
      end
  | _, _ => (NotReady, [])
  end.

(** [search_query], the handler of the search button and of Enter. *)
Definition search_query (rag_system : FlowRAGSystem) (question : string) (top_k : Z)
  : search_output * list call :=
  if negb (Py.nonempty question) then (EnterQuestion, [])
  else search rag_system question top_k.

(** ** Notions used in the statements *)



(** The file name a status line shows, if any. *)
Definition status_file (s : status) : option string :=
  match s with
  | NoDocumentYet => None
  | FileOnly f | FileChunks f _ | FileChunksVectors f _ _ => Some f
  end.

(** No character of [s] is whitespace. *)
Fixpoint no_space (s : string) : bool :=
  match s with
  | EmptyString => true
  | String c s' => negb (Py.isspace c) && no_space s'
  end.

(** A word: not empty and free of whitespace. *)
Definition is_word (s : string) : bool := Py.nonempty s && no_space s.

(** What holds of the system object between calls: it is ready exactly
    when it has a model, and an index never goes without a model and a
    non-empty chunk list. *)
Definition consistent (self : FlowRAGSystem) : Prop :=
  (is_ready self = true <-> model self <> None)
  /\ (index self <> None ->
      model self <> None /\ exists cs : list chunk, chunks self = Some cs /\ cs <> []).

(** A call on [pdf_file] stops before [self.chunks] is assigned: the
    reader raises, or no page carries text. *)
Definition stops_before_chunking
           (PdfReader : string -> result (list (option string)))
           (pdf_file : UploadedFile) : bool :=
  match PdfReader (read pdf_file) with
  | Raise _ => true
  | Ok pages => negb (Py.truthy (collect_pages 0 pages))
  end.

(** A call on [pdf_file] gets as far as assigning a new index: the
    reader returns pages with text, there is a model, and it returns
    embeddings for the chunk texts. *)
Definition reaches_index_build
           (PdfReader : string -> result (list (option string)))
           (model : option SentenceTransformer) (pdf_file : UploadedFile) : bool :=
  match PdfReader (read pdf_file) with
  | Raise _ => false
  | Ok pages =>
      Py.truthy (collect_pages 0 pages)
      && match model with
         | None => false
         | Some encode =>
             match encode (map text (chunk_pages (collect_pages 0 pages))) with
             | Raise _ => false
             | Ok _ => true
             end
         end
  end.

(** The guard of the search loop passes the hit at position [entry]. *)
Definition passes (cs : list chunk) (entry : Z * (Q * Z)) : bool :=
  (0 <=? snd (snd entry)) && (snd (snd entry) <? Py.len cs).

(** Card [c] shows the hit [(s, idx)] found at position [i]: number
    [i + 1], score [s], and page, word count and first 400 characters
    of chunk [idx]. *)
Definition shows (cs : list chunk) (c : result_card) (entry : Z * (Q * Z)) : Prop :=
  rank c = fst entry + 1
  /\ score c = fst (snd entry)
  /\ exists ch : chunk,
       nth_error cs (Z.to_nat (snd (snd entry))) = Some ch
       /\ card_page c = page ch
       /\ card_word_count c = word_count ch
       /\ excerpt c = Py.prefix 400 (text ch).

(** ** Concrete collaborators for the examples *)

Module Demo.

(** A reader that finds three pages in the file whose content is
    [book], and otherwise one page, whose text is the file content. *)
Definition reader (content : string) : result (list (option string)) :=
  if String.eqb content "book"
  then Ok [Some "alpha"; Some "beta"; Some "gamma"]
  else Ok [Some content].

(** Rows are left as they are (they are unit rows already). *)
Definition normalize (m : ndarray) : result ndarray := Ok m.

(** An embedder that maps the text [beta] to the unit row [(0, 1)] and
    every other text to [(1, 0)], and raises when asked to embed the
    text [boom]. *)
Definition encode : SentenceTransformer :=
  fun texts =>
    if existsb (String.eqb "boom") texts then Raise "encoder unavailable"
    else Ok (mkArray 2 (map (fun t => if String.eqb t "beta"
                                      then [0%Q; 1%Q] else [1%Q; 0%Q]) texts)).

(** Collaborators none of which raises. *)
Definition ext : Externals :=
  mkExternals reader normalize (fun _ _ => None) (fun _ => Ok tt).

(** The same, but the normalisation runs out of memory. *)
Definition ext_no_memory : Externals :=
  mkExternals reader (fun _ => Raise "out of memory") (fun _ _ => None) (fun _ => Ok tt).

(** The same as [ext], but the index refuses the rows. *)
Definition ext_add_fails : Externals :=
  mkExternals reader normalize (fun _ _ => Some "add failed") (fun _ => Ok tt).

(** The same as [ext], but the temporary file cannot be removed. *)
Definition ext_no_unlink : Externals :=
  mkExternals reader normalize (fun _ _ => None) (fun _ => Raise "permission denied").

Definition doc_a : UploadedFile := mkUpload "a.pdf" "alpha beta".
Definition doc_b : UploadedFile := mkUpload "b.pdf" "boom".
Definition blank : UploadedFile := mkUpload "blank.pdf" "   ".

(** The system after start-up, after [doc_a] was processed, and after
    [book] was processed. *)
Definition booted : FlowRAGSystem := fst (initialize (Ok encode) new_system).
Definition ready : FlowRAGSystem := fst (process_pdf ext booted doc_a).

End Demo.

(** * Properties *)

(** ** Slices and lengths *)

Lemma len_nonneg {A : Type} (l : list A) : 0 <= Py.len l.
Proof. unfold Py.len. lia. Qed.

Lemma len_app {A : Type} (l1 l2 : list A) : Py.len (l1 ++ l2) = Py.len l1 + Py.len l2.
Proof. unfold Py.len. rewrite length_app. lia. Qed.

Lemma len_nil_iff {A : Type} (l : list A) : Py.len l = 0 <-> l = [].
Proof.
  unfold Py.len. destruct l as [|x l]; simpl; split; intro H; try reflexivity; discriminate.
Qed.

Lemma truthy_len {A : Type} (l : list A) : Py.truthy l = (0 <? Py.len l).
Proof.
  unfold Py.len. destruct l as [|x l]; simpl; [reflexivity|].
  symmetry. apply Z.ltb_lt. lia.
Qed.

(** With bounds that are not negative, a slice is [skipn] then [firstn]. *)
Lemma slice_nonneg {A : Type} (l : list A) (a b : Z) :
  0 <= a -> a <= b ->
  Py.slice l a b = firstn (Z.to_nat (b - a)) (skipn (Z.to_nat a) l).
Proof.
  intros Ha Hab. unfold Py.slice, Py.bound.
  assert (Ea : (a <? 0) = false) by (apply Z.ltb_ge; lia).
  assert (Eb : (b <? 0) = false) by (apply Z.ltb_ge; lia).
  rewrite Ea, Eb. unfold Py.len.
  set (n := List.length l).
  destruct (Z_le_gt_dec a (Z.of_nat n)) as [Han|Han].
  - rewrite (Z.min_l a) by lia.
    destruct (Z_le_gt_dec b (Z.of_nat n)) as [Hbn|Hbn].
    + rewrite Z.min_l by lia. reflexivity.
    + rewrite Z.min_r by lia.
      rewrite !firstn_all2; try reflexivity; rewrite length_skipn; fold n; lia.
  - rewrite !Z.min_r by lia.
    rewrite Z.sub_diag. simpl.
    rewrite (skipn_all2 l) by (fold n; lia).
    rewrite firstn_nil. reflexivity.
Qed.

Lemma length_slice_nonneg {A : Type} (l : list A) (a b : Z) :
  0 <= a -> a <= b ->
  Py.len (Py.slice l a b) = Z.max 0 (Z.min (b - a) (Py.len l - a)).
Proof.
  intros Ha Hab. rewrite slice_nonneg by assumption.
  unfold Py.len. rewrite length_firstn, length_skipn. lia.
Qed.

(** A whole list is the slice from [0] to any bound past its end. *)
Lemma slice_all {A : Type} (l : list A) (b : Z) :
  Py.len l <= b -> Py.slice l 0 b = l.
Proof.
  intros Hb. pose proof (len_nonneg l).
  rewrite slice_nonneg by lia. simpl.
  apply firstn_all2. unfold Py.len in *. lia.
Qed.

(** ** The chunking loop *)

Section ChunkerFacts.

Variables (size ovl : Z).
Hypothesis size_gt_ovl : ovl < size.
Hypothesis ovl_nonneg : 0 <= ovl.

Lemma n_windows_done (L start : Z) :
  L <= start -> n_windows size ovl L start = 0%nat.
Proof.
  intros H. unfold n_windows.
  assert ((L - start + (size - ovl) - 1) / (size - ovl) <= 0).
  { apply Z.lt_succ_r. apply Z.div_lt_upper_bound; lia. }
  lia.
Qed.

Lemma n_windows_step (L start : Z) :
  start < L ->
  n_windows size ovl L start = S (n_windows size ovl L (start + (size - ovl))).
Proof.
  intros H. unfold n_windows.
  replace (L - start + (size - ovl) - 1)
    with ((L - (start + (size - ovl)) + (size - ovl) - 1) + 1 * (size - ovl)) by lia.
  rewrite Z.div_add by lia.
  assert (0 <= (L - (start + (size - ovl)) + (size - ovl) - 1) / (size - ovl)).
  { apply Z.div_pos; lia. }
  lia.
Qed.

(** The window count is the first index whose start is past the end. *)
Lemma n_windows_least (L : Z) (i : nat) :
  (i < n_windows size ovl L 0)%nat <-> Z.of_nat i * (size - ovl) < L.
Proof.
  unfold n_windows. rewrite Z.sub_0_r.
  set (st := size - ovl). assert (Hst : 0 < st) by (unfold st; lia).
  destruct (Z_lt_le_dec 0 L) as [HL|HL].
  - assert (Hq : 0 <= (L + st - 1) / st) by (apply Z.div_pos; lia).
    split; intro H.
    + assert (Z.of_nat i < (L + st - 1) / st) by lia.
      assert (Z.of_nat i + 1 <= (L + st - 1) / st) by lia.
      assert (st * (Z.of_nat i + 1) <= L + st - 1).
      { etransitivity; [apply Z.mul_le_mono_nonneg_l; [lia|eassumption]|].
        apply Z.mul_div_le. lia. }
      lia.
    + assert (Z.of_nat i + 1 <= (L + st - 1) / st); [|lia].
      apply Z.div_le_lower_bound; lia.
  - assert ((L + st - 1) / st <= 0).
    { apply Z.lt_succ_r. apply Z.div_lt_upper_bound; lia. }
    split; intro H0; [lia|]. nia.
Qed.

(** A window that starts inside the word list is not empty. *)
Lemma window_nonempty (words : list string) (start : Z) :
  0 <= start < Py.len words -> Py.truthy (window size words start) = true.
Proof.
  intros H. rewrite truthy_len. unfold window.
  rewrite length_slice_nonneg by lia. apply Z.ltb_lt. lia.
Qed.

(** With enough fuel the loop is left, having appended one chunk per
    start [start + j * (size - ovl)] below [len(words)], in order. *)
Lemma chunk_loop_spec (fuel : nat) (page_no : Z) (words : list string) :
  forall (start : Z) (acc : list chunk),
    0 <= start ->
    (n_windows size ovl (Py.len words) start <= fuel)%nat ->
    chunk_loop size ovl fuel page_no words start acc =
    (acc ++ map (fun j => make_chunk page_no
                            (window size words (start + Z.of_nat j * (size - ovl))))
                (seq 0 (n_windows size ovl (Py.len words) start)),
     true).
Proof.
  induction fuel as [|fuel IH]; intros start acc Hs Hf.
  - simpl. destruct (start <? Py.len words) eqn:E.
    + apply Z.ltb_lt in E. rewrite n_windows_step in Hf by assumption. lia.
    + apply Z.ltb_ge in E. rewrite n_windows_done by assumption.
      simpl. rewrite app_nil_r. reflexivity.
  - simpl. destruct (start <? Py.len words) eqn:E.
    + apply Z.ltb_lt in E.
      fold (window size words start).
      rewrite window_nonempty by lia.
      rewrite (n_windows_step _ start) in * by assumption.
      rewrite IH by lia.
      rewrite <- app_assoc. simpl. rewrite <- seq_shift, map_map.
      rewrite Z.add_0_r. do 3 f_equal.
      apply map_ext. intros j. do 2 f_equal. lia.
    + apply Z.ltb_ge in E. rewrite n_windows_done by assumption.
      simpl. rewrite app_nil_r. reflexivity.
Qed.

(** The body runs at most once per word. *)
Lemma n_windows_le_len (words : list string) :
  (n_windows size ovl (Py.len words) 0 <= List.length words)%nat.
Proof.
  destruct (Nat.le_gt_cases (n_windows size ovl (Py.len words) 0) (List.length words))
    as [H|H]; [assumption|].
  apply n_windows_least in H. unfold Py.len in H. nia.
Qed.

End ChunkerFacts.

(** ** The chunker with the constants of the source *)

Lemma constants_valid : 0 <= overlap < chunk_size.
Proof. unfold overlap, chunk_size. lia. Qed.

Lemma chunk_loop_page (page_no : Z) (words : list string) (acc : list chunk) :
  chunk_loop chunk_size overlap (List.length words) page_no words 0 acc =
  (acc ++ map (make_chunk page_no) (page_windows words), true).
Proof.
  pose proof constants_valid as Hc.
  rewrite (chunk_loop_spec chunk_size overlap) by (try lia; apply n_windows_le_len; lia).
  unfold page_windows. rewrite map_map. reflexivity.
Qed.

Lemma chunk_words_app (acc : list chunk) (page_no : Z) (words : list string) :
  chunk_words acc page_no words = acc ++ page_chunks page_no words.
Proof.
  unfold page_chunks, chunk_words. rewrite !chunk_loop_page. reflexivity.
Qed.

Lemma page_chunks_windows (page_no : Z) (words : list string) :
  page_chunks page_no words = map (make_chunk page_no) (page_windows words).
Proof. unfold page_chunks, chunk_words. rewrite chunk_loop_page. reflexivity. Qed.

Lemma chunk_pages_from (pages_data : list page_entry) :
  forall acc,
    fold_left
      (fun chunks p => chunk_words chunks (page_no p) (Py.split (page_text p)))
      pages_data acc
    = acc ++ List.concat (map (fun p => page_chunks (page_no p) (Py.split (page_text p)))
                         pages_data).
Proof.
  induction pages_data as [|p ps IH]; intros acc; simpl.
  - rewrite app_nil_r. reflexivity.
  - rewrite IH, chunk_words_app, app_assoc. reflexivity.
Qed.

(** C3. For every page word sequence the chunker is the sliding window
    that starts at index 0 and advances by the fixed stride
    [chunk_size - overlap]: the loop is left, and the chunks it appended
    to [self.chunks] are, in order, [words[i*stride : i*stride + chunk_size]]
    joined by single spaces, for exactly the indices [i] whose start
    [i*stride] is below [len(words)]; each of those windows is non-empty;
    no words give no chunk; and the chunks of a document are the chunks
    of its pages concatenated in page order. *)
Theorem C3_sliding_window (pg : Z) (words : list string) (acc : list chunk) :
  let stride := chunk_size - overlap in
  let n := n_windows chunk_size overlap (Py.len words) 0 in
  let emitted :=
    map (fun i : nat =>
           let w := Py.slice words (Z.of_nat i * stride)
                             (Z.of_nat i * stride + chunk_size) in
           mkChunk (Py.join " " w) pg (Py.len w))
        (seq 0 n) in
  chunk_loop chunk_size overlap (List.length words) pg words 0 acc = (acc ++ emitted, true)
  /\ chunk_words acc pg words = acc ++ emitted
  /\ page_chunks pg words = emitted
  /\ (forall i : nat, (i < n)%nat <-> Z.of_nat i * stride < Py.len words)
  /\ Forall (fun i : nat =>
               Py.slice words (Z.of_nat i * stride) (Z.of_nat i * stride + chunk_size) <> [])
            (seq 0 n)
  /\ page_chunks pg [] = []
  /\ (forall pages_data : list page_entry,
        chunk_pages pages_data =
        List.concat (map (fun p => page_chunks (page_no p) (Py.split (page_text p)))
                    pages_data)).
Proof.
  intros stride n emitted. pose proof constants_valid as Hc.
  assert (Hloop : forall acc',
             chunk_loop chunk_size overlap (List.length words) pg words 0 acc'
             = (acc' ++ emitted, true)).
  { intros acc'. rewrite chunk_loop_page. unfold page_windows, emitted.
    rewrite map_map. reflexivity. }
  split; [apply Hloop|].
  split; [unfold chunk_words; rewrite Hloop; reflexivity|].
  split; [unfold page_chunks, chunk_words; rewrite Hloop; reflexivity|].
  split; [|split; [|split]].
  - intros i. apply n_windows_least; lia.
  - apply Forall_forall. intros i Hi. apply in_seq in Hi.
    assert (Hlt : Z.of_nat i * stride < Py.len words).
    { unfold n in Hi. apply (n_windows_least chunk_size overlap); lia. }
    pose proof (window_nonempty chunk_size overlap ltac:(lia) ltac:(lia) words
                  (Z.of_nat i * stride) ltac:(unfold stride in *; lia)) as Hw.
    unfold window in Hw. intros E. rewrite E in Hw. discriminate.
  - reflexivity.
  - intros pages_data. unfold chunk_pages. rewrite chunk_pages_from. reflexivity.
Qed.

(** ** Words and their round trip through a chunk's text *)

Lemma append_nil_r (s : string) : (s ++ "")%string = s.
Proof. induction s as [|c s IH]; simpl; [reflexivity|]. rewrite IH. reflexivity. Qed.

Lemma append_assoc (a b c : string) : ((a ++ b) ++ c)%string = (a ++ (b ++ c))%string.
Proof. induction a as [|x a IH]; simpl; [reflexivity|]. rewrite IH. reflexivity. Qed.

Lemma no_space_app (a b : string) :
  no_space (a ++ b)%string = no_space a && no_space b.
Proof.
  induction a as [|c a IH]; simpl; [reflexivity|].
  rewrite IH. apply andb_assoc.
Qed.

Lemma nonempty_app_l (a b : string) :
  Py.nonempty a = true -> Py.nonempty (a ++ b)%string = true.
Proof. destruct a; [discriminate|reflexivity]. Qed.

(** What [split] returns are words. *)
Lemma split_from_words (s : string) :
  forall word : string,
    no_space word = true ->
    Forall (fun w => is_word w = true) (Py.split_from word s).
Proof.
  induction s as [|c s IH]; intros word Hw; simpl.
  - destruct (Py.nonempty word) eqn:E; constructor; [|constructor].
    unfold is_word. rewrite E, Hw. reflexivity.
  - destruct (Py.isspace c) eqn:Ec.
    + destruct (Py.nonempty word) eqn:E; [constructor|]; try (apply IH; reflexivity).
      unfold is_word. rewrite E, Hw. reflexivity.
    + apply IH. rewrite no_space_app, Hw. simpl. rewrite Ec. reflexivity.
Qed.

(** Reading a word is reading its characters into the current run. *)
Lemma split_from_prefix (w : string) :
  forall acc rest : string,
    no_space w = true ->
    Py.split_from acc (w ++ rest)%string = Py.split_from (acc ++ w)%string rest.
Proof.
  induction w as [|c w IH]; intros acc rest H; simpl.
  - rewrite append_nil_r. reflexivity.
  - simpl in H. apply andb_prop in H. destruct H as [Hc Hw].
    apply negb_true_iff in Hc. rewrite Hc.
    rewrite IH by exact Hw. rewrite append_assoc. reflexivity.
Qed.

(** Splitting the join of words gives the words back. *)
Lemma split_join (ws : list string) :
  Forall (fun w => is_word w = true) ws ->
  Py.split (Py.join " " ws) = ws.
Proof.
  unfold Py.split, Py.join.
  induction ws as [|w ws IH]; intros H; [reflexivity|].
  inversion H as [|? ? Hw Hws]; subst.
  unfold is_word in Hw. apply andb_prop in Hw. destruct Hw as [Hne Hns].
  destruct ws as [|w' ws].
  - simpl. rewrite <- (append_nil_r w) at 1.
    rewrite split_from_prefix by exact Hns. simpl. rewrite Hne. reflexivity.
  - change (String.concat " " (w :: w' :: ws))
      with (w ++ (String " " (String.concat " " (w' :: ws))))%string.
    rewrite split_from_prefix by exact Hns. cbn [append].
    change (Py.split_from w (String " " (String.concat " " (w' :: ws))))
      with (if Py.nonempty w
            then w :: Py.split_from EmptyString (String.concat " " (w' :: ws))
            else Py.split_from EmptyString (String.concat " " (w' :: ws))).
    rewrite Hne, (IH Hws). reflexivity.
Qed.

Lemma Forall_slice {A : Type} (P : A -> Prop) (l : list A) (a b : Z) :
  Forall P l -> Forall P (Py.slice l a b).
Proof.
  intros H. unfold Py.slice. rewrite Forall_forall in *. intros x Hx.
  apply H.
  set (n := Z.to_nat (Py.bound (Py.len l) a)) in *.
  rewrite <- (firstn_skipn n l). apply in_or_app. right.
  set (k := Z.to_nat _) in Hx.
  rewrite <- (firstn_skipn k (skipn n l)). apply in_or_app. left. exact Hx.
Qed.

(** ** Windows of a page: coverage and overlap *)

Lemma slice_to_end {A : Type} (l : list A) (a b : Z) :
  0 <= a -> a <= b -> Py.len l <= b -> Py.slice l a b = skipn (Z.to_nat a) l.
Proof.
  intros Ha Hab Hb. rewrite slice_nonneg by assumption.
  apply firstn_all2. rewrite length_skipn. unfold Py.len in Hb. lia.
Qed.

Section WindowFacts.

Variables (size ovl : Z).
Hypothesis size_gt_ovl : ovl < size.
Hypothesis ovl_nonneg : 0 <= ovl.
Variable words : list string.

Let stride : Z := size - ovl.
Let L : Z := Py.len words.

Lemma windows_from_done (start : Z) :
  L <= start -> windows_from size ovl words start = [].
Proof.
  intros H. unfold windows_from. rewrite n_windows_done by (unfold L in H; lia).
  reflexivity.
Qed.

Lemma windows_from_step (start : Z) :
  start < L ->
  windows_from size ovl words start =
  window size words start :: windows_from size ovl words (start + stride).
Proof.
  intros H. unfold windows_from, stride.
  rewrite (n_windows_step size ovl) by (unfold L in H; lia).
  simpl. rewrite Z.add_0_r. f_equal.
  rewrite <- seq_shift, map_map. apply map_ext. intros j. f_equal. lia.
Qed.

(** The first [stride] words of a window are the words from its start
    up to the next start. *)
Lemma window_head (start : Z) :
  0 <= start ->
  firstn (Z.to_nat stride) (window size words start) =
  firstn (Z.to_nat stride) (skipn (Z.to_nat start) words).
Proof.
  intros Hs. unfold window. rewrite slice_nonneg by lia.
  rewrite firstn_firstn. f_equal. unfold stride. lia.
Qed.

(** Dropping the first [stride] words of every window but the last and
    keeping the last whole gives back the words from [start] on. *)
Lemma windows_cover (k : nat) :
  forall start : Z,
    0 <= start ->
    n_windows size ovl L start = k ->
    List.concat (map (firstn (Z.to_nat stride))
                     (removelast (windows_from size ovl words start)))
    ++ last (windows_from size ovl words start) []
    = skipn (Z.to_nat start) words.
Proof.
  induction k as [|k IH]; intros start Hs Hk.
  - assert (Hge : L <= start).
    { destruct (Z_lt_le_dec start L) as [Hlt|Hge]; [|assumption].
      rewrite (n_windows_step size ovl) in Hk by lia. discriminate. }
    rewrite windows_from_done by assumption. simpl.
    symmetry. apply skipn_all2. unfold L, Py.len in Hge. lia.
  - assert (Hlt : start < L).
    { destruct (Z_lt_le_dec start L) as [Hlt|Hge]; [assumption|].
      rewrite (n_windows_done size ovl) in Hk by lia. discriminate. }
    rewrite windows_from_step by assumption.
    rewrite (n_windows_step size ovl) in Hk by lia. injection Hk as Hk.
    fold stride in Hk.
    specialize (IH (start + stride) ltac:(unfold stride; lia) Hk).
    destruct (windows_from size ovl words (start + stride)) as [|w ws] eqn:E.
    + simpl.
      assert (Hend : L <= start + stride).
      { destruct (Z_lt_le_dec (start + stride) L) as [Hl|Hg]; [|assumption].
        rewrite windows_from_step in E by assumption. discriminate. }
      unfold window. apply slice_to_end; unfold L, stride in *; lia.
    + change (removelast (window size words start :: w :: ws))
        with (window size words start :: removelast (w :: ws)).
      change (last (window size words start :: w :: ws) [])
        with (last (w :: ws) []).
      rewrite map_cons, concat_cons, <- app_assoc, IH.
      rewrite window_head by assumption.
      replace (Z.to_nat (start + stride)) with (Z.to_nat stride + Z.to_nat start)%nat
        by (unfold stride; lia).
      rewrite <- (skipn_skipn (Z.to_nat stride) (Z.to_nat start)).
      apply firstn_skipn.
Qed.

(** The tail of a window beyond its first [stride] words is the head of
    the window that starts [stride] later. *)
Lemma windows_share (start : Z) :
  0 <= start ->
  skipn (Z.to_nat stride) (window size words start) =
  firstn (Z.to_nat ovl) (window size words (start + stride)).
Proof.
  intros Hs. unfold window. rewrite !slice_nonneg by (unfold stride; lia).
  rewrite skipn_firstn_comm, firstn_firstn, skipn_skipn.
  replace (Z.to_nat (start + size - start) - Z.to_nat stride)%nat with (Z.to_nat ovl)
    by (unfold stride; lia).
  replace (Nat.min (Z.to_nat ovl) (Z.to_nat (start + stride + size - (start + stride))))
    with (Z.to_nat ovl) by (unfold stride; lia).
  f_equal. f_equal. unfold stride. lia.
Qed.

End WindowFacts.

Lemma page_windows_from (words : list string) :
  page_windows words = windows_from chunk_size overlap words 0.
Proof. unfold page_windows, windows_from. apply map_ext. intros j. reflexivity. Qed.

Lemma nth_error_seq_inv (n : nat) :
  forall a i x, nth_error (seq a n) i = Some x -> x = (a + i)%nat /\ (i < n)%nat.
Proof.
  induction n as [|n IH]; intros a i x H.
  - destruct i; discriminate.
  - destruct i as [|i]; simpl in H.
    + injection H as <-. lia.
    + apply IH in H. lia.
Qed.

Lemma nth_error_page_windows (words : list string) (i : nat) (w : list string) :
  nth_error (page_windows words) i = Some w ->
  w = window chunk_size words (Z.of_nat i * (chunk_size - overlap)).
Proof.
  unfold page_windows. rewrite nth_error_map.
  destruct (nth_error (seq 0 _) i) as [j|] eqn:E; [|discriminate].
  apply nth_error_seq_inv in E. destruct E as [-> _]. simpl.
  intros H. injection H as <-. reflexivity.
Qed.

(** C8. For every page word sequence chunked with the constants of the
    source (200 and 40): the chunks are the word windows of the page,
    each joined by single spaces and counted; the first 160 words of
    every window but the last, followed by the whole last window, are
    exactly the page's words; of two consecutive full-size windows the
    words of the first past its 160th are the first 40 words of the
    second, and they are 40 words; and when the words are words (not
    empty, no whitespace, as [split] gives them), the same holds of the
    words read back from the chunks' texts. *)
Theorem C8_reconstruction (pg : Z) (words : list string) :
  let keep := Z.to_nat (chunk_size - overlap) in
  let stride := chunk_size - overlap in
  let ws :=
    map (fun i : nat =>
           Py.slice words (Z.of_nat i * stride) (Z.of_nat i * stride + chunk_size))
        (seq 0 (n_windows chunk_size overlap (Py.len words) 0)) in
  let read_back := map (fun c => Py.split (text c)) (page_chunks pg words) in
  page_chunks pg words = map (fun w => mkChunk (Py.join " " w) pg (Py.len w)) ws
  /\ List.concat (map (firstn keep) (removelast ws)) ++ last ws [] = words
  /\ (forall (i : nat) (w1 w2 : list string),
        nth_error ws i = Some w1 ->
        nth_error ws (S i) = Some w2 ->
        Py.len w1 = chunk_size ->
        Py.len w2 = chunk_size ->
        skipn keep w1 = firstn (Z.to_nat overlap) w2
        /\ Py.len (firstn (Z.to_nat overlap) w2) = overlap)
  /\ (Forall (fun w => is_word w = true) words ->
      read_back = ws
      /\ map word_count (page_chunks pg words) = map Py.len read_back
      /\ List.concat (map (firstn keep) (removelast read_back)) ++ last read_back []
         = words
      /\ (forall (i : nat) (c1 c2 : chunk),
            nth_error (page_chunks pg words) i = Some c1 ->
            nth_error (page_chunks pg words) (S i) = Some c2 ->
            word_count c1 = chunk_size ->
            word_count c2 = chunk_size ->
            skipn keep (Py.split (text c1)) = firstn (Z.to_nat overlap) (Py.split (text c2))
            /\ Py.len (firstn (Z.to_nat overlap) (Py.split (text c2))) = overlap)).
Proof.
  intros keep stride ws read_back. pose proof constants_valid as Hc.
  change ws with (page_windows words) in *.
  assert (Hchunks : page_chunks pg words
                    = map (fun w => mkChunk (Py.join " " w) pg (Py.len w))
                          (page_windows words))
    by apply page_chunks_windows.
  assert (Hcover : List.concat (map (firstn keep) (removelast (page_windows words)))
                   ++ last (page_windows words) [] = words).
  { rewrite page_windows_from.
    apply (windows_cover chunk_size overlap ltac:(lia) ltac:(lia) words
             (n_windows chunk_size overlap (Py.len words) 0) 0);
      [lia|reflexivity]. }
  assert (Hshare : forall (i : nat) (w1 w2 : list string),
             nth_error (page_windows words) i = Some w1 ->
             nth_error (page_windows words) (S i) = Some w2 ->
             Py.len w1 = chunk_size ->
             Py.len w2 = chunk_size ->
             skipn keep w1 = firstn (Z.to_nat overlap) w2
             /\ Py.len (firstn (Z.to_nat overlap) w2) = overlap).
  { intros i w1 w2 H1 H2 L1 L2.
    apply nth_error_page_windows in H1, H2. subst w1 w2. split.
    + replace (Z.of_nat (S i) * (chunk_size - overlap))
        with (Z.of_nat i * (chunk_size - overlap) + (chunk_size - overlap)) by lia.
      apply (windows_share chunk_size overlap); lia.
    + unfold Py.len in *. rewrite length_firstn. unfold chunk_size, overlap in *. lia. }
  split; [exact Hchunks|split; [exact Hcover|split; [exact Hshare|]]].
  intros Hwords.
  assert (Hback : read_back = page_windows words).
  { unfold read_back. rewrite Hchunks, map_map. simpl.
    rewrite <- (map_id (page_windows words)) at 2.
    apply map_ext_in. intros w Hw. apply split_join.
    unfold page_windows in Hw. apply in_map_iff in Hw. destruct Hw as (j & <- & _).
    apply Forall_slice. exact Hwords. }
  split; [exact Hback|]. rewrite Hback.
  split; [rewrite Hchunks, map_map; reflexivity|].
  split; [exact Hcover|].
  intros i c1 c2 H1 H2 L1 L2.
  rewrite Hchunks in H1, H2. rewrite nth_error_map in H1, H2.
  destruct (nth_error (page_windows words) i) as [w1|] eqn:E1; [|discriminate].
  destruct (nth_error (page_windows words) (S i)) as [w2|] eqn:E2; [|discriminate].
  simpl in H1, H2. injection H1 as <-. injection H2 as <-. simpl in L1, L2 |- *.
  assert (W1 : Py.split (Py.join " " w1) = w1).
  { apply split_join. apply nth_error_page_windows in E1. subst w1.
    apply Forall_slice. exact Hwords. }
  assert (W2 : Py.split (Py.join " " w2) = w2).
  { apply split_join. apply nth_error_page_windows in E2. subst w2.
    apply Forall_slice. exact Hwords. }
  rewrite W1, W2. apply (Hshare i); assumption.
Qed.

(** The statement of C8 on a page of 400 words: the chunks' texts give
    the page back, and chunks 0 and 1 are full-size and share 40 words. *)
Lemma C8_reconstruction_witness :
  let words := repeat "w" 400 in
  let read_back := map (fun c => Py.split (text c)) (page_chunks 1 words) in
  List.concat (map (firstn 160) (removelast read_back)) ++ last read_back [] = words
  /\ skipn 160 (Py.split (text (nth 0 (page_chunks 1 words) no_chunk)))
     = firstn 40 (Py.split (text (nth 1 (page_chunks 1 words) no_chunk)))
  /\ Py.len (firstn 40 (Py.split (text (nth 1 (page_chunks 1 words) no_chunk)))) = 40.
Proof.
  intros words read_back.
  assert (Hwords : Forall (fun w => is_word w = true) words).
  { apply Forall_forall. intros w Hw. apply repeat_spec in Hw. subst w. reflexivity. }
  destruct (C8_reconstruction 1 words) as (_ & _ & _ & Hback).
  destruct (Hback Hwords) as (_ & _ & Hcover & Hshare).
  split; [exact Hcover|].
  apply (Hshare 0%nat (nth 0 (page_chunks 1 words) no_chunk)
                (nth 1 (page_chunks 1 words) no_chunk)); vm_compute; reflexivity.
Defined.

(** ** Short pages *)

Lemma page_windows_one (words : list string) :
  0 < Py.len words <= chunk_size - overlap ->
  page_windows words = [words].
Proof.
  intros H. pose proof constants_valid as Hc.
  rewrite page_windows_from.
  rewrite (windows_from_step chunk_size overlap) by lia.
  rewrite (windows_from_done chunk_size overlap) by lia.
  unfold window. rewrite slice_all by lia. reflexivity.
Qed.

Lemma page_windows_two (words : list string) :
  chunk_size - overlap < Py.len words <= chunk_size ->
  page_windows words =
  [words; Py.slice words (chunk_size - overlap) (Py.len words)].
Proof.
  intros H. pose proof constants_valid as Hc.
  rewrite page_windows_from.
  rewrite (windows_from_step chunk_size overlap) by lia.
  rewrite (windows_from_step chunk_size overlap) by lia.
  rewrite (windows_from_done chunk_size overlap) by (unfold chunk_size, overlap in *; lia).
  unfold window. rewrite slice_all by lia.
  rewrite Z.add_0_l.
  rewrite (slice_to_end words _ (chunk_size - overlap + chunk_size)) by lia.
  rewrite (slice_to_end words _ (Py.len words)) by lia.
  reflexivity.
Qed.

(** C2 (as the code has it). For every page whose word sequence has
    length [L] with [0 < L <= chunk_size]: the first chunk contains all
    [L] words and has [word_count = L]; it is the only chunk when
    [L <= chunk_size - overlap] (160), and when [160 < L <= 200] it is
    followed by one more chunk, the words from index 160 on. *)
Theorem C2_short_page (pg : Z) (words : list string) :
  0 < Py.len words <= chunk_size ->
  (Py.len words <= chunk_size - overlap ->
   page_chunks pg words = [mkChunk (Py.join " " words) pg (Py.len words)])
  /\ (chunk_size - overlap < Py.len words ->
      page_chunks pg words =
      [mkChunk (Py.join " " words) pg (Py.len words);
       make_chunk pg (Py.slice words (chunk_size - overlap) (Py.len words))]).
Proof.
  intros H. rewrite page_chunks_windows. split; intros H'.
  - rewrite page_windows_one by lia. reflexivity.
  - rewrite page_windows_two by lia. reflexivity.
Qed.

Lemma C2_short_page_witness :
  page_chunks 1 ["alpha"; "beta"] = [mkChunk "alpha beta" 1 2].
Proof.
  refine (proj1 (C2_short_page 1 ["alpha"; "beta"] _) _);
    unfold Py.len, chunk_size, overlap; simpl; lia.
Defined.

(** C2 as stated fails on a page of 161 words: two chunks are emitted. *)
Lemma C2_counterexample :
  let words := repeat "w" 161 in
  0 < Py.len words <= chunk_size
  /\ List.length (page_chunks 1 words) = 2%nat.
Proof. vm_compute. repeat split; discriminate. Qed.

(** ** Termination of the loop *)



(** ** Whitespace: a kept page has at least one word *)

Lemma split_from_word (s : string) :
  forall word : string, Py.nonempty word = true -> Py.split_from word s <> [].
Proof.
  induction s as [|c s IH]; intros word Hw; simpl.
  - rewrite Hw. discriminate.
  - destruct (Py.isspace c).
    + rewrite Hw. discriminate.
    + apply IH. destruct word; [discriminate|reflexivity].
Qed.

Lemma lstrip_head (s : string) :
  match Py.lstrip s with
  | EmptyString => True
  | String c _ => Py.isspace c = false
  end.
Proof.
  induction s as [|c s IH]; simpl; [exact I|].
  destruct (Py.isspace c) eqn:E; [exact IH|exact E].
Qed.

Lemma rstrip_head (s : string) :
  match s, Py.rstrip s with
  | _, EmptyString => True
  | String c _, String c' _ => c' = c
  | EmptyString, String _ _ => False
  end.
Proof.
  destruct s as [|c s]; simpl; [exact I|].
  destruct (Py.rstrip s); [destruct (Py.isspace c)|]; auto.
Qed.

Lemma split_strip_nonempty (t : string) :
  Py.nonempty (Py.strip t) = true -> Py.split (Py.strip t) <> [].
Proof.
  unfold Py.strip. intros H.
  pose proof (lstrip_head t) as Hl. pose proof (rstrip_head (Py.lstrip t)) as Hr.
  destruct (Py.lstrip t) as [|c s]; [discriminate H|].
  destruct (Py.rstrip (String c s)) as [|c' s'] eqn:E; [discriminate H|].
  subst c'. unfold Py.split. simpl. rewrite Hl.
  apply split_from_word. reflexivity.
Qed.

Lemma collect_pages_text (pages : list (option string)) :
  forall i, Forall (fun p => Py.split (page_text p) <> []) (collect_pages i pages).
Proof.
  induction pages as [|t pages IH]; intros i; simpl; [constructor|].
  destruct t as [t|]; [|apply IH].
  destruct (Py.nonempty t && Py.nonempty (Py.strip t)) eqn:E; [|apply IH].
  apply andb_prop in E. destruct E as [_ E].
  constructor; [apply split_strip_nonempty; exact E|apply IH].
Qed.

Lemma page_chunks_nonempty (pg : Z) (words : list string) :
  words <> [] -> page_chunks pg words <> [].
Proof.
  intros Hw. pose proof constants_valid as Hc.
  rewrite page_chunks_windows, page_windows_from.
  assert (0 < Py.len words).
  { pose proof (len_nonneg words). pose proof (len_nil_iff words) as [Hn _].
    destruct (Z.eq_dec (Py.len words) 0) as [E|E]; [elim Hw; auto|lia]. }
  rewrite (windows_from_step chunk_size overlap) by lia. discriminate.
Qed.

(** Pages that were kept always give at least one chunk. *)
Lemma chunk_pages_nonempty (pages : list (option string)) :
  Py.truthy (collect_pages 0 pages) = true ->
  (Py.len (chunk_pages (collect_pages 0 pages)) >? 0) = true.
Proof.
  intros H. pose proof (collect_pages_text pages 0) as Hall.
  destruct (collect_pages 0 pages) as [|p ps]; [discriminate|].
  unfold chunk_pages. rewrite chunk_pages_from. simpl.
  inversion Hall as [|? ? Hp _]; subst.
  apply (page_chunks_nonempty (page_no p)) in Hp.
  destruct (page_chunks (page_no p) (Py.split (page_text p))) as [|c l]; [elim Hp; reflexivity|].
  apply Z.gtb_lt. unfold Py.len. simpl. lia.
Qed.

(** ** What one call of [process_pdf] leaves behind *)

Section ProcessFacts.

Variable ext : Externals.

(** Case analysis along the branches of [process_pdf]. *)
Ltac process_cases self :=
  unfold process_pdf; destruct self as [m ix cs cf rd]; simpl;
  repeat match goal with
         | |- context [match ?x with _ => _ end] => destruct x eqn:?; simpl
         end.

(** The file name is assigned first, whatever happens next. *)
Lemma process_pdf_current_file (self : FlowRAGSystem) (pdf_file : UploadedFile) :
  current_file (fst (process_pdf ext self pdf_file)) = Some (name pdf_file).
Proof. process_cases self; reflexivity. Qed.

(** The model and the ready flag are never assigned. *)
Lemma process_pdf_model (self : FlowRAGSystem) (pdf_file : UploadedFile) :
  model (fst (process_pdf ext self pdf_file)) = model self
  /\ is_ready (fst (process_pdf ext self pdf_file)) = is_ready self.
Proof. process_cases self; split; reflexivity. Qed.

(** A call that stops before chunking fails and leaves the chunks and
    the index. *)
Lemma process_pdf_stops_early (self : FlowRAGSystem) (pdf_file : UploadedFile) :
  stops_before_chunking (PdfReader ext) pdf_file = true ->
  is_failure (snd (process_pdf ext self pdf_file)) = true
  /\ chunks (fst (process_pdf ext self pdf_file)) = chunks self
  /\ index (fst (process_pdf ext self pdf_file)) = index self.
Proof.
  unfold stops_before_chunking. process_cases self; intros H;
    try discriminate; repeat split; reflexivity.
Qed.

(** The zero-chunks message is never returned: a page that was kept has
    a word, and a word gives a chunk. *)
Lemma process_pdf_never_zero_chunks (self : FlowRAGSystem) (pdf_file : UploadedFile) :
  snd (process_pdf ext self pdf_file) <> NoChunksCreated.
Proof.
  unfold process_pdf.
  destruct (PdfReader ext (read pdf_file)) as [pages|e]; [|discriminate].
  destruct (Py.truthy (collect_pages 0 pages)) eqn:E; simpl;
    [|destruct (unlink ext (read pdf_file)); discriminate].
  rewrite (chunk_pages_nonempty pages E).
  destruct self as [m ix cs cf rd]; simpl.
  destruct m as [enc|]; [|discriminate].
  destruct (enc _); [|discriminate].
  destruct (normalize_L2 ext _); [|discriminate].
  destruct (index_add ext _ _); [|discriminate].
  destruct (unlink ext _); discriminate.
Qed.

(** The branch a call takes once the reader found pages with text. *)
Lemma process_pdf_with_text (self : FlowRAGSystem) (pdf_file : UploadedFile)
      (pages : list (option string)) :
  PdfReader ext (read pdf_file) = Ok pages ->
  Py.truthy (collect_pages 0 pages) = true ->
  process_pdf ext self pdf_file =
  let cs := chunk_pages (collect_pages 0 pages) in
  let self1 := set_chunks (set_current_file self (name pdf_file)) cs in
  match model self with
  | None => (self1, PdfError "'NoneType' object has no attribute 'encode'")
  | Some encode =>
      match encode (map text cs) with
      | Raise e => (self1, PdfError e)
      | Ok embeddings =>
          let empty := VectorIndex.IndexFlatIP (shape1 embeddings) in
          match normalize_L2 ext embeddings with
          | Raise e => (set_index self1 empty, PdfError e)
          | Ok normalized =>
              match index_add_raises ext empty normalized with
              | Some e => (set_index self1 empty, PdfError e)
              | None =>
                  match unlink ext (read pdf_file) with
                  | Raise e =>
                      (set_index self1 (VectorIndex.add empty normalized), PdfError e)
                  | Ok _ =>
                      (set_index self1 (VectorIndex.add empty normalized),
                       Processed (Py.len (collect_pages 0 pages)) (Py.len cs))
                  end
              end
          end
      end
  end.
Proof.
  intros Hp Ht. unfold process_pdf, index_add. rewrite Hp, Ht.
  rewrite (chunk_pages_nonempty pages Ht).
  destruct self as [m ix cs cf rd]; simpl.
  destruct m as [enc|]; [|reflexivity].
  destruct (enc _) as [emb|e]; [|reflexivity].
  destruct (normalize_L2 ext emb) as [n|e]; [|reflexivity].
  destruct (index_add_raises ext _ n); [reflexivity|].
  destruct (unlink ext _); reflexivity.
Qed.

(** The outcomes of a sequence are one per call. *)
Lemma process_all_cons (self : FlowRAGSystem) (f : UploadedFile) (files : list UploadedFile) :
  process_all ext self (f :: files) =
  (fst (process_all ext (fst (process_pdf ext self f)) files),
   snd (process_pdf ext self f) :: snd (process_all ext (fst (process_pdf ext self f)) files)).
Proof.
  simpl. destruct (process_pdf ext self f) as [s o]. simpl.
  destruct (process_all ext s files) as [s' os]. reflexivity.
Qed.

Lemma process_all_stops_early (files : list UploadedFile) :
  forall self : FlowRAGSystem,
    forallb (stops_before_chunking (PdfReader ext)) files = true ->
    forallb is_failure (snd (process_all ext self files)) = true
    /\ chunks (fst (process_all ext self files)) = chunks self
    /\ index (fst (process_all ext self files)) = index self.
Proof.
  induction files as [|f files IH]; intros self H; [repeat split; reflexivity|].
  rewrite process_all_cons. simpl in *.
  apply andb_prop in H. destruct H as [H1 H2].
  destruct (process_pdf_stops_early self f H1) as (F & C & I).
  destruct (IH (fst (process_pdf ext self f)) H2) as (F' & C' & I').
  rewrite F, F', C', C, I', I. repeat split; reflexivity.
Qed.

(** C1 (as the code has it). A [process_pdf] call that stops before the
    chunking (the reader raises, or no page carries text), and every
    sequence of such calls, fails and leaves the chunks and the index as
    they were.  A call that gets past the text check has put the chunks
    of its own document in place of the previous ones; if it then fails,
    the index is the previous one when the embedding step failed (no
    model, or the embedder raised), a new empty one when normalising or
    adding the rows raised, and the complete new one when only the
    removal of the temporary file raised. *)
Theorem C1_failed_rebuild (self : FlowRAGSystem) (files : list UploadedFile)
        (pdf_file : UploadedFile) :
  (forallb (stops_before_chunking (PdfReader ext)) files = true ->
   forallb is_failure (snd (process_all ext self files)) = true
   /\ chunks (fst (process_all ext self files)) = chunks self
   /\ index (fst (process_all ext self files)) = index self)
  /\ (forall pages : list (option string),
        PdfReader ext (read pdf_file) = Ok pages ->
        Py.truthy (collect_pages 0 pages) = true ->
        let cs := chunk_pages (collect_pages 0 pages) in
        let self' := fst (process_pdf ext self pdf_file) in
        let outcome := snd (process_pdf ext self pdf_file) in
        chunks self' = Some cs
        /\ (match model self with
            | None => True
            | Some encode => exists e, encode (map text cs) = Raise e
            end ->
            is_failure outcome = true /\ index self' = index self)
        /\ (forall (encode : SentenceTransformer) (embeddings : ndarray),
              model self = Some encode ->
              encode (map text cs) = Ok embeddings ->
              let empty := VectorIndex.IndexFlatIP (shape1 embeddings) in
              (match normalize_L2 ext embeddings with
               | Raise _ => True
               | Ok normalized => index_add_raises ext empty normalized <> None
               end ->
               is_failure outcome = true /\ index self' = Some empty)
              /\ (forall (normalized : ndarray) (e : string),
                    normalize_L2 ext embeddings = Ok normalized ->
                    index_add_raises ext empty normalized = None ->
                    unlink ext (read pdf_file) = Raise e ->
                    outcome = PdfError e
                    /\ index self' = Some (VectorIndex.add empty normalized)))).
Proof.
  split; [apply process_all_stops_early|].
  intros pages Hp Ht cs self' outcome.
  unfold self', outcome. rewrite (process_pdf_with_text self pdf_file pages Hp Ht).
  fold cs. cbv zeta. destruct self as [m ix cs0 cf rd]; simpl.
  split; [|split].
  - destruct m as [enc|]; [|reflexivity].
    destruct (enc _); [|reflexivity].
    destruct (normalize_L2 ext _); [|reflexivity].
    destruct (index_add_raises ext _ _); [reflexivity|].
    destruct (unlink ext _); reflexivity.
  - destruct m as [enc|]; [|split; reflexivity].
    intros [e He]. rewrite He. split; reflexivity.
  - intros enc emb Hm He. simpl in Hm. subst m. rewrite He. split.
    + destruct (normalize_L2 ext emb) as [n|e]; [|split; reflexivity].
      intros Hadd. destruct (index_add_raises ext _ n); [split; reflexivity|].
      elim Hadd. reflexivity.
    + intros n e Hn Ha Hu. rewrite Hn, Ha, Hu. split; reflexivity.
Qed.

(** C10. The file name is assigned at the start of every [process_pdf]
    call: after the call, whatever its outcome, [current_file] is the
    name of the file just given and the status line shows it (when the
    name is not empty); and when the call failed for lack of text, the
    chunks and the index are still those of the state before the call. *)
Theorem C10_file_name_first (self : FlowRAGSystem) (pdf_file : UploadedFile) :
  let self' := fst (process_pdf ext self pdf_file) in
  current_file self' = Some (name pdf_file)
  /\ (Py.nonempty (name pdf_file) = true ->
      status_file (update_status self') = Some (name pdf_file))
  /\ (snd (process_pdf ext self pdf_file) = NoTextFound ->
      chunks self' = chunks self /\ index self' = index self).
Proof.
  intros self'. pose proof (process_pdf_current_file self pdf_file) as Hc.
  fold self' in Hc. split; [exact Hc|split].
  - intros Hn. unfold update_status. rewrite Hc, Hn.
    destruct (chunks self') as [cs|]; [|reflexivity].
    destruct (Py.truthy cs); [|reflexivity].
    destruct (index self'); reflexivity.
  - unfold self'. clear Hc self'.
    process_cases self; intros H; try discriminate; split; reflexivity.
Qed.

End ProcessFacts.

(** ** The similarity label *)

Lemma similarity_label (s : Q) :
  (snd (similarity s) = Excellent <-> (1 # 2 <= s)%Q)
  /\ (snd (similarity s) = Good <-> (3 # 10 <= s)%Q /\ (s < 1 # 2)%Q)
  /\ (snd (similarity s) = Weak <-> (s < 3 # 10)%Q).
Proof.
  unfold similarity.
  assert (T : (3 # 10 < 1 # 2)%Q) by reflexivity.
  destruct (Qle_bool (1 # 2) s) eqn:E1.
  - apply Qle_bool_iff in E1.
    assert (N1 : ~ (s < 1 # 2)%Q) by (apply Qle_not_lt; assumption).
    assert (N2 : ~ (s < 3 # 10)%Q).
    { intros H. apply N1. apply Qlt_trans with (3 # 10)%Q; assumption. }
    simpl. intuition discriminate.
  - assert (N1 : ~ (1 # 2 <= s)%Q) by (intros H; apply Qle_bool_iff in H; congruence).
    assert (L1 : (s < 1 # 2)%Q) by (apply Qnot_le_lt; assumption).
    destruct (Qle_bool (3 # 10) s) eqn:E2.
    + apply Qle_bool_iff in E2.
      assert (N2 : ~ (s < 3 # 10)%Q) by (apply Qle_not_lt; assumption).
      simpl. intuition discriminate.
    + assert (N2 : ~ (3 # 10 <= s)%Q) by (intros H; apply Qle_bool_iff in H; congruence).
      assert (L2 : (s < 3 # 10)%Q) by (apply Qnot_le_lt; assumption).
      simpl. intuition discriminate.
Qed.

(** ** The search loop *)

Lemma search_loop_app (cs : list chunk) (hits : list (Q * Z)) :
  forall (i : Z) (results : list result_card),
    search_loop cs i hits results = results ++ search_loop cs i hits [].
Proof.
  induction hits as [|[s idx] hits IH]; intros i results; simpl.
  - rewrite app_nil_r. reflexivity.
  - destruct (in_range cs idx).
    + rewrite IH. rewrite (IH _ [_]). rewrite app_assoc. reflexivity.
    + apply IH.
Qed.

(** A hit that the guard rejects (such as a padding row index [-1])
    gives no card. *)
Lemma search_loop_skip (cs : list chunk) (i : Z) (s : Q) (idx : Z)
      (hits : list (Q * Z)) (results : list result_card) :
  in_range cs idx = false ->
  search_loop cs i ((s, idx) :: hits) results = search_loop cs (i + 1) hits results.
Proof. intros H. simpl. rewrite H. reflexivity. Qed.

(** Every card carries the label and colour of its own score, and the
    page, word count and text of a chunk of the session. *)
Lemma search_loop_card (cs : list chunk) (hits : list (Q * Z)) :
  forall (i : Z) (c : result_card),
    In c (search_loop cs i hits []) ->
    exists (j : Z) (idx : Z),
      In (score c, idx) hits /\ in_range cs idx = true /\ c = make_card cs j (score c) idx.
Proof.
  induction hits as [|[s idx] hits IH]; intros i c H; simpl in H; [contradiction|].
  destruct (in_range cs idx) eqn:E.
  - rewrite search_loop_app in H. simpl in H. destruct H as [<-|H].
    + exists i, idx. simpl. auto.
    + destruct (IH _ _ H) as (j & idx' & Hin & Hr & Hc).
      exists j, idx'. simpl. auto.
  - destruct (IH _ _ H) as (j & idx' & Hin & Hr & Hc).
    exists j, idx'. simpl. auto.
Qed.

(** What [search] returns when it finds results. *)
Lemma search_found (self : FlowRAGSystem) (query : string) (top_k n : Z)
      (results : list result_card) :
  fst (search self query top_k) = Found n results ->
  exists (cs : list chunk) (hits : list (Q * Z)),
    chunks self = Some cs /\ results = search_loop cs 0 hits [] /\ n = Py.len results.
Proof.
  unfold search. destruct self as [m ix cs cf rd]; simpl.
  destruct rd; [|discriminate]. destruct ix as [ix|]; [|discriminate].
  destruct m as [enc|]; [|discriminate].
  destruct (enc [query]) as [qe|e]; [|discriminate].
  destruct cs as [cs|].
  - destruct (Py.truthy _) eqn:E; [|discriminate].
    simpl. intros H. injection H as <- <-. eauto.
  - destruct (VectorIndex.search _ _ _); discriminate.
Qed.

(** The loop, hit by hit: the cards are the hits that pass the guard,
    in order, each with the number of its position among all hits. *)
Lemma search_loop_enumerated (cs : list chunk) (hits : list (Q * Z)) :
  forall i : Z,
    Forall2 (shows cs) (search_loop cs i hits [])
            (filter (passes cs) (Py.enumerate i hits)).
Proof.
  induction hits as [|[s idx] hits IH]; intros i; simpl; [constructor|].
  unfold passes at 1. simpl. fold (in_range cs idx).
  destruct (in_range cs idx) eqn:E; [|apply IH].
  rewrite search_loop_app. simpl. constructor; [|apply IH].
  unfold in_range in E. apply andb_prop in E. destruct E as [E0 E1].
  apply Z.leb_le in E0. apply Z.ltb_lt in E1.
  unfold shows. simpl. repeat split.
  destruct (nth_error cs (Z.to_nat idx)) as [ch|] eqn:N.
  - exists ch. unfold chunk_at. rewrite (nth_error_nth _ _ _ N). repeat split.
  - apply nth_error_None in N. unfold Py.len in E1. lia.
Qed.



(** C4. For every result that [search] returns, the label shown with
    the score is Excellent exactly when the score is at least 0.5, Good
    exactly when it is at least 0.3 and below 0.5, and Weak exactly when
    it is below 0.3: each threshold belongs to the bucket above it. *)
Theorem C4_buckets (self : FlowRAGSystem) (query : string) (top_k n : Z)
        (results : list result_card) (c : result_card) :
  fst (search self query top_k) = Found n results ->
  In c results ->
  (sim_text c = Excellent <-> (1 # 2 <= score c)%Q)
  /\ (sim_text c = Good <-> (3 # 10 <= score c)%Q /\ (score c < 1 # 2)%Q)
  /\ (sim_text c = Weak <-> (score c < 3 # 10)%Q).
Proof.
  intros Hf Hin.
  destruct (search_found _ _ _ _ _ Hf) as (cs & hits & _ & -> & _).
  destruct (search_loop_card _ _ _ _ Hin) as (j & idx & _ & _ & Hc).
  assert (E : sim_text c = snd (similarity (score c))) by (rewrite Hc at 1; reflexivity).
  rewrite E. apply similarity_label.
Qed.

(** ** The index search: ranking *)

Module RankFacts.

Import VectorIndex.















End RankFacts.

(** ** Queries *)



(** The ranking on the three pages of [book]: rows 0 and 2 tie on score
    1 and come in row order, row 1 (score 0) comes last. *)
Lemma ranking_of_book :
  VectorIndex.search (VectorIndex.mk 2 [[1%Q; 0%Q]; [0%Q; 1%Q]; [1%Q; 0%Q]]) [1%Q; 0%Q] 3
  = [(1%Q, 0); (1%Q, 2); (0%Q, 1)]
  /\ map (fun c => (rank c, card_page c, excerpt c, sim_text c))
         (search_loop [mkChunk "alpha" 1 1; mkChunk "beta" 2 1; mkChunk "gamma" 3 1] 0
                      [(1%Q, 0); (1%Q, 2); (0%Q, 1)] [])
     = [(1, 1, "alpha", Excellent); (2, 3, "gamma", Excellent); (3, 2, "beta", Weak)].
Proof. split; reflexivity. Qed.


Lemma C4_buckets_witness :
  let c := mkCard 1 1 "#28a745" Excellent 1 2 "alpha beta" in
  (sim_text c = Excellent <-> (1 # 2 <= score c)%Q)
  /\ (sim_text c = Good <-> (3 # 10 <= score c)%Q /\ (score c < 1 # 2)%Q)
  /\ (sim_text c = Weak <-> (score c < 3 # 10)%Q).
Proof.
  exact (C4_buckets Demo.ready "q" 1 1
           [mkCard 1 1 "#28a745" Excellent 1 2 "alpha beta"]
           (mkCard 1 1 "#28a745" Excellent 1 2 "alpha beta")
           eq_refl (or_introl eq_refl)).
Defined.

Lemma search_without_index (self : FlowRAGSystem) (query : string) (top_k : Z) :
  index self = None -> search self query top_k = (NotReady, []).
Proof.
  intros H. unfold search. rewrite H. destruct (is_ready self); reflexivity.
Qed.

Lemma process_pdf_no_index_build (ext : Externals) (self : FlowRAGSystem)
      (pdf_file : UploadedFile) :
  reaches_index_build (PdfReader ext) (model self) pdf_file = false ->
  is_failure (snd (process_pdf ext self pdf_file)) = true
  /\ index (fst (process_pdf ext self pdf_file)) = index self.
Proof.
  unfold reaches_index_build.
  destruct (PdfReader ext (read pdf_file)) as [pages|e] eqn:Hp.
  - destruct (Py.truthy (collect_pages 0 pages)) eqn:Ht.
    + rewrite (process_pdf_with_text ext self pdf_file pages Hp Ht). cbv zeta.
      destruct self as [m ix cs cf rd]; simpl.
      destruct m as [enc|]; [|split; reflexivity].
      destruct (enc _); [discriminate|split; reflexivity].
    + intros _.
      assert (E : stops_before_chunking (PdfReader ext) pdf_file = true)
        by (unfold stops_before_chunking; rewrite Hp, Ht; reflexivity).
      destruct (process_pdf_stops_early ext self pdf_file E) as (F & _ & I).
      split; assumption.
  - intros _.
    assert (E : stops_before_chunking (PdfReader ext) pdf_file = true)
      by (unfold stops_before_chunking; rewrite Hp; reflexivity).
    destruct (process_pdf_stops_early ext self pdf_file E) as (F & _ & I).
    split; assumption.
Qed.

Lemma process_all_no_index_build (ext : Externals) (m : option SentenceTransformer)
      (files : list UploadedFile) :
  forall self : FlowRAGSystem,
    model self = m ->
    forallb (fun f => negb (reaches_index_build (PdfReader ext) m f)) files = true ->
    forallb is_failure (snd (process_all ext self files)) = true
    /\ index (fst (process_all ext self files)) = index self.
Proof.
  induction files as [|f files IH]; intros self Hm H; [split; reflexivity|].
  rewrite process_all_cons. simpl in *.
  apply andb_prop in H. destruct H as [H1 H2]. apply negb_true_iff in H1.
  rewrite <- Hm in H1.
  destruct (process_pdf_no_index_build ext self f H1) as [F I].
  destruct (IH (fst (process_pdf ext self f))
               ltac:(rewrite (proj1 (process_pdf_model ext self f)); exact Hm) H2)
    as [F' I'].
  rewrite F, F', I', I. split; reflexivity.
Qed.

(** Searching an index without rows finds nothing. *)
Lemma search_empty_index (self : FlowRAGSystem) (dimension : Z) (cs : list chunk)
      (encode : SentenceTransformer) (query : string) (query_embedding : ndarray)
      (top_k : Z) :
  is_ready self = true ->
  index self = Some (VectorIndex.IndexFlatIP dimension) ->
  chunks self = Some cs ->
  model self = Some encode ->
  encode [query] = Ok query_embedding ->
  search self query top_k = (NoResults, [CallEncode [query]; CallIndexSearch top_k]).
Proof.
  intros Hr Hi Hc Hm He. unfold search. rewrite Hr, Hi, Hm, He, Hc.
  unfold VectorIndex.search. simpl. rewrite firstn_nil. reflexivity.
Qed.

(** C6 (as the code has it). While no [process_pdf] call since start-up
    has got as far as creating an index (every call stopped at the
    reader, at the text check or at the embedding step), every call has
    failed and [search] returns the process-a-document-first message,
    with no result and without calling the embedder or the index.  A
    call that fails while the index is being built (normalising or
    adding the rows raises) leaves an index without rows: a query is
    then embedded and searched, and gets the nothing-relevant-found
    message, again with no result. *)
Theorem C6_not_ready (ext : Externals) (load : result SentenceTransformer)
        (files : list UploadedFile) (query : string) (top_k : Z) :
  let booted := fst (initialize load new_system) in
  (forallb (fun f => negb (reaches_index_build (PdfReader ext) (model booted) f)) files
   = true ->
   forallb is_failure (snd (process_all ext booted files)) = true
   /\ search (fst (process_all ext booted files)) query top_k = (NotReady, []))
  /\ (forall (self : FlowRAGSystem) (pdf_file : UploadedFile)
             (pages : list (option string)) (encode : SentenceTransformer)
             (embeddings query_embedding : ndarray),
        PdfReader ext (read pdf_file) = Ok pages ->
        Py.truthy (collect_pages 0 pages) = true ->
        model self = Some encode ->
        encode (map text (chunk_pages (collect_pages 0 pages))) = Ok embeddings ->
        match normalize_L2 ext embeddings with
        | Raise _ => True
        | Ok normalized =>
            index_add_raises ext (VectorIndex.IndexFlatIP (shape1 embeddings)) normalized
            <> None
        end ->
        is_ready self = true ->
        encode [query] = Ok query_embedding ->
        is_failure (snd (process_pdf ext self pdf_file)) = true
        /\ search (fst (process_pdf ext self pdf_file)) query top_k
           = (NoResults, [CallEncode [query]; CallIndexSearch top_k])).
Proof.
  intros booted. split.
  - intros H.
    destruct (process_all_no_index_build ext (model booted) files booted eq_refl H)
      as [F I].
    split; [exact F|]. apply search_without_index. rewrite I.
    unfold booted. destruct load; reflexivity.
  - intros self pdf_file pages encode emb qe Hp Ht Hm He Hfail Hr Hq.
    rewrite (process_pdf_with_text ext self pdf_file pages Hp Ht). cbv zeta.
    rewrite Hm, He.
    assert (Hsearch : forall o : process_outcome,
               search (fst (set_index
                              (set_chunks (set_current_file self (name pdf_file))
                                          (chunk_pages (collect_pages 0 pages)))
                              (VectorIndex.IndexFlatIP (shape1 emb)), o))
                      query top_k
               = (NoResults, [CallEncode [query]; CallIndexSearch top_k])).
    { intros o.
      apply (search_empty_index _ (shape1 emb) (chunk_pages (collect_pages 0 pages))
               encode query qe top_k); try reflexivity; assumption. }
    destruct (normalize_L2 ext emb) as [n|e].
    + destruct (index_add_raises ext _ n) as [e|]; [|elim Hfail; reflexivity].
      split; [reflexivity|apply Hsearch].
    + split; [reflexivity|apply Hsearch].
Qed.

Lemma C6_not_ready_witness :
  forallb is_failure (snd (process_all Demo.ext Demo.booted [Demo.blank; Demo.doc_b]))
  = true
  /\ search (fst (process_all Demo.ext Demo.booted [Demo.blank; Demo.doc_b])) "q" 3
     = (NotReady, []).
Proof.
  exact (proj1 (C6_not_ready Demo.ext (Ok Demo.encode) [Demo.blank; Demo.doc_b] "q" 3)
           eq_refl).
Defined.

(** C6 as stated fails: on a system that has processed nothing, a call
    on [a.pdf] fails because normalising the embeddings raises; no
    document has been built, yet the next query is embedded and
    searched and is answered with nothing-relevant-found, not with
    process-a-document-first. *)
Lemma C6_counterexample :
  let st := fst (process_pdf Demo.ext_no_memory Demo.booted Demo.doc_a) in
  index Demo.booted = None
  /\ snd (process_pdf Demo.ext_no_memory Demo.booted Demo.doc_a) = PdfError "out of memory"
  /\ index st = Some (VectorIndex.mk 2 [])
  /\ search st "q" 3 = (NoResults, [CallEncode ["q"]; CallIndexSearch 3]).
Proof. repeat split; reflexivity. Qed.

(** C7 (as the code has it). For every query whose text is the empty
    string, [search_query] returns the enter-a-question message and
    calls neither the embedder nor the index search; any other text,
    blank or not, is handed to [search] as it is. *)
Theorem C7_empty_question (rag_system : FlowRAGSystem) (question : string) (top_k : Z) :
  (question = "" -> search_query rag_system question top_k = (EnterQuestion, []))
  /\ (question <> "" ->
      search_query rag_system question top_k = search rag_system question top_k).
Proof.
  unfold search_query. split; intros H.
  - subst question. reflexivity.
  - destruct question; [contradiction|reflexivity].
Qed.

Lemma C7_empty_question_witness :
  search_query Demo.ready "" 3 = (EnterQuestion, []).
Proof. exact (proj1 (C7_empty_question Demo.ready "" 3) eq_refl). Defined.

(** C7 as stated fails on a query of two spaces: it is empty after
    trimming, yet it is embedded and searched, and a result comes back. *)
Lemma C7_counterexample :
  Py.strip "  " = ""
  /\ search_query Demo.ready "  " 3
     = (Found 1 [mkCard 1 1 "#28a745" Excellent 1 2 "alpha beta"],
        [CallEncode ["  "]; CallIndexSearch 3]).
Proof. split; reflexivity. Qed.

(** ** Scenarios on the example collaborators *)

Lemma C1_failed_rebuild_witness :
  chunks (fst (process_pdf Demo.ext Demo.ready Demo.doc_b)) = Some [mkChunk "boom" 1 1]
  /\ is_failure (snd (process_pdf Demo.ext Demo.ready Demo.doc_b)) = true
  /\ index (fst (process_pdf Demo.ext Demo.ready Demo.doc_b)) = index Demo.ready.
Proof.
  destruct (proj2 (C1_failed_rebuild Demo.ext Demo.ready [] Demo.doc_b)
              [Some "boom"] eq_refl eq_refl) as (Hc & He & _).
  split; [exact Hc|]. apply He. exists "encoder unavailable". reflexivity.
Defined.

(** C1 as stated fails: after [a.pdf] was processed, processing [b.pdf]
    fails at the embedding step; the index is still that of [a.pdf], the
    chunks are those of [b.pdf], and the same query now shows the text of
    [b.pdf]. *)
Lemma C1_counterexample :
  let st1 := Demo.ready in
  let st2 := fst (process_pdf Demo.ext st1 Demo.doc_b) in
  snd (process_pdf Demo.ext Demo.booted Demo.doc_a) = Processed 1 1
  /\ snd (process_pdf Demo.ext st1 Demo.doc_b)
     = PdfError "encoder unavailable"
  /\ index st2 = index st1
  /\ chunks st1 = Some [mkChunk "alpha beta" 1 2]
  /\ chunks st2 = Some [mkChunk "boom" 1 1]
  /\ fst (search st1 "q" 1) = Found 1 [mkCard 1 1 "#28a745" Excellent 1 2 "alpha beta"]
  /\ fst (search st2 "q" 1) = Found 1 [mkCard 1 1 "#28a745" Excellent 1 1 "boom"].
Proof. repeat split; reflexivity. Qed.

Lemma C10_file_name_first_witness :
  let st := fst (process_pdf Demo.ext Demo.ready Demo.blank) in
  update_status st = FileChunksVectors "blank.pdf" 1 1
  /\ status_file (update_status st) = Some "blank.pdf"
  /\ chunks st = chunks Demo.ready
  /\ index st = index Demo.ready.
Proof.
  intros st.
  destruct (C10_file_name_first Demo.ext Demo.ready Demo.blank)
    as (_ & Hs & Hk).
  split; [reflexivity|split; [exact (Hs eq_refl)|exact (Hk eq_refl)]].
Defined.

(** * Further properties of the code *)

(** Case analysis along the branches of [process_pdf], every call of it
    in the goal at once. *)
Ltac process_branches self :=
  unfold process_pdf; destruct self as [m ix cs cf rd]; cbn;
  repeat match goal with
         | |- context [match ?x with _ => _ end] => destruct x eqn:?; cbn in *
         end.

(** ** [process_pdf]: outcomes *)

Lemma chunk_pages_at_least_pages (pages_data : list page_entry) :
  Forall (fun p => Py.split (page_text p) <> []) pages_data ->
  Py.len pages_data <= Py.len (chunk_pages pages_data).
Proof.
  unfold chunk_pages. rewrite chunk_pages_from. rewrite app_nil_l.
  induction pages_data as [|p ps IH]; intros H; [unfold Py.len; simpl; lia|].
  inversion H as [|? ? Hp Hps]; subst. specialize (IH Hps).
  rewrite map_cons, concat_cons, len_app.
  apply (page_chunks_nonempty (page_no p)) in Hp.
  assert (1 <= Py.len (page_chunks (page_no p) (Py.split (page_text p)))).
  { destruct (page_chunks (page_no p) (Py.split (page_text p)));
      [elim Hp; reflexivity|unfold Py.len; simpl; lia]. }
  assert (Py.len (p :: ps) = 1 + Py.len ps) by (unfold Py.len; simpl List.length; lia).
  lia.
Qed.

(** X1. [process_pdf] never returns the no-parts-were-created message:
    a page that was kept has a word and a word gives a chunk, so the
    [else] branch of [if len(self.chunks) > 0] is dead; and a success
    message always reports at least one page and at least as many
    chunks as pages. *)
Theorem X1_zero_chunks_unreachable
        (ext : Externals)
        (self : FlowRAGSystem) (pdf_file : UploadedFile) :
  snd (process_pdf ext self pdf_file) <> NoChunksCreated
  /\ (forall n_pages n_chunks : Z,
        snd (process_pdf ext self pdf_file)
        = Processed n_pages n_chunks ->
        1 <= n_pages <= n_chunks).
Proof.
  split; [apply process_pdf_never_zero_chunks|].
  intros n_pages n_chunks.
  destruct (PdfReader ext (read pdf_file)) as [pages|e] eqn:Hp;
    [|unfold process_pdf; rewrite Hp; discriminate].
  destruct (Py.truthy (collect_pages 0 pages)) eqn:E.
  - rewrite (process_pdf_with_text ext self pdf_file pages Hp E). cbv zeta.
    destruct (model self) as [enc|]; [|discriminate].
    destruct (enc _); [|discriminate].
    destruct (normalize_L2 ext _); [|discriminate].
    destruct (index_add_raises ext _ _); [discriminate|].
    destruct (unlink ext _); [|discriminate].
    simpl. intros H. injection H as <- <-.
    pose proof (chunk_pages_at_least_pages _ (collect_pages_text pages 0)).
    rewrite truthy_len in E. apply Z.ltb_lt in E. lia.
  - unfold process_pdf. rewrite Hp, E. simpl.
    destruct (unlink ext _); discriminate.
Qed.

(** X2. A successful [process_pdf] leaves a state that owes nothing to
    the previous document: the chunks are those of the new pages, and
    the index is a fresh one of the embeddings' dimension holding
    exactly the normalised embedding rows of the new chunk texts. *)
Theorem X2_success_state
        (ext : Externals)
        (self : FlowRAGSystem) (pdf_file : UploadedFile) (n_pages n_chunks : Z) :
  snd (process_pdf ext self pdf_file) = Processed n_pages n_chunks ->
  exists (pages : list (option string)) (encode : SentenceTransformer)
         (embeddings normalized : ndarray),
    PdfReader ext (read pdf_file) = Ok pages
    /\ model self = Some encode
    /\ encode (map text (chunk_pages (collect_pages 0 pages))) = Ok embeddings
    /\ normalize_L2 ext embeddings = Ok normalized
    /\ n_pages = Py.len (collect_pages 0 pages)
    /\ n_chunks = Py.len (chunk_pages (collect_pages 0 pages))
    /\ fst (process_pdf ext self pdf_file)
       = mkSystem (model self)
                  (Some (VectorIndex.mk (shape1 embeddings) (rows normalized)))
                  (Some (chunk_pages (collect_pages 0 pages)))
                  (Some (name pdf_file))
                  (is_ready self).
Proof.
  destruct (PdfReader ext (read pdf_file)) as [pages|e] eqn:Hp;
    [|unfold process_pdf; rewrite Hp; discriminate].
  destruct (Py.truthy (collect_pages 0 pages)) eqn:E;
    [|unfold process_pdf; rewrite Hp, E; simpl;
      destruct (unlink ext _); discriminate].
  rewrite (process_pdf_with_text ext self pdf_file pages Hp E). cbv zeta.
  destruct self as [m ix cs cf rd]; simpl.
  destruct m as [enc|]; [|discriminate].
  destruct (enc _) as [emb|e] eqn:He; [|discriminate].
  destruct (normalize_L2 ext emb) as [n|e] eqn:Hn; [|discriminate].
  destruct (index_add_raises ext _ n); [discriminate|].
  destruct (unlink ext _); [|discriminate].
  simpl. intros H. injection H as <- <-.
  exists pages, enc, emb, n. repeat split; try reflexivity; assumption.
Qed.

Lemma X2_success_state_witness :
  exists (pages : list (option string)) (encode : SentenceTransformer)
         (embeddings normalized : ndarray),
    PdfReader Demo.ext (read Demo.doc_a) = Ok pages
    /\ model Demo.booted = Some encode
    /\ encode (map text (chunk_pages (collect_pages 0 pages))) = Ok embeddings
    /\ normalize_L2 Demo.ext embeddings = Ok normalized
    /\ 1 = Py.len (collect_pages 0 pages)
    /\ 1 = Py.len (chunk_pages (collect_pages 0 pages))
    /\ fst (process_pdf Demo.ext Demo.booted Demo.doc_a)
       = mkSystem (model Demo.booted)
                  (Some (VectorIndex.mk (shape1 embeddings) (rows normalized)))
                  (Some (chunk_pages (collect_pages 0 pages)))
                  (Some (name Demo.doc_a))
                  (is_ready Demo.booted).
Proof.
  exact (X2_success_state Demo.ext Demo.booted Demo.doc_a 1 1 eq_refl).
Defined.

(** X3. Processing the same file again changes nothing: the second of
    two consecutive [process_pdf] calls on one file returns the same
    message as the first and leaves the same state. *)
Theorem X3_process_twice
        (ext : Externals)
        (self : FlowRAGSystem) (pdf_file : UploadedFile) :
  process_pdf ext
              (fst (process_pdf ext self pdf_file)) pdf_file
  = process_pdf ext self pdf_file.
Proof.
  process_branches self; try reflexivity; try congruence.
  all: repeat match goal with
         | H : Some ?x = Some ?y |- _ => injection H as H; subst
         | H1 : ?f ?x = _, H2 : ?f ?x = _ |- _ =>
             rewrite H1 in H2; injection H2 as H2; subst
         end; reflexivity.
Qed.

(** ** Whitespace: [strip] and [split] *)

Lemma split_lstrip (s : string) :
  Py.split_from EmptyString (Py.lstrip s) = Py.split_from EmptyString s.
Proof.
  induction s as [|c s IH]; simpl; [reflexivity|].
  destruct (Py.isspace c) eqn:E; [exact IH|].
  simpl. rewrite E. reflexivity.
Qed.

Lemma split_rstrip (s : string) :
  forall word : string, Py.split_from word (Py.rstrip s) = Py.split_from word s.
Proof.
  induction s as [|c s IH]; intros word; simpl; [reflexivity|].
  destruct (Py.rstrip s) as [|c' r] eqn:R.
  - destruct (Py.isspace c) eqn:E; simpl.
    + rewrite <- (IH EmptyString). simpl.
      destruct (Py.nonempty word); reflexivity.
    + rewrite E. rewrite <- IH. reflexivity.
  - simpl. destruct (Py.isspace c); rewrite <- !IH; reflexivity.
Qed.

(** Stripping a text does not change its words. *)
Lemma split_strip (t : string) : Py.split (Py.strip t) = Py.split t.
Proof. unfold Py.split, Py.strip. rewrite split_rstrip. apply split_lstrip. Qed.

Lemma strip_empty_string : Py.strip EmptyString = EmptyString.
Proof. reflexivity. Qed.

(** The test that keeps a page holds exactly when the page has a word. *)
Lemma kept_iff_word (t : string) :
  Py.nonempty t && Py.nonempty (Py.strip t) = true <-> Py.split t <> [].
Proof.
  split.
  - intros H. apply andb_prop in H. destruct H as [_ H].
    rewrite <- split_strip. apply split_strip_nonempty. exact H.
  - intros H. destruct t as [|c t]; [elim H; reflexivity|]. simpl andb.
    destruct (Py.nonempty (Py.strip (String c t))) eqn:E; [reflexivity|].
    exfalso. apply H. rewrite <- split_strip.
    destruct (Py.strip (String c t)); [reflexivity|discriminate].
Qed.

(** ** The pages that are kept *)

Lemma collect_pages_in (pages : list (option string)) :
  forall (i : Z) (p : page_entry),
    In p (collect_pages i pages) <->
    exists (k : nat) (t : string),
      nth_error pages k = Some (Some t)
      /\ Py.split t <> []
      /\ p = mkPage (i + Z.of_nat k + 1) (Py.strip t).
Proof.
  induction pages as [|x pages IH]; intros i p; simpl.
  - split; [contradiction|]. intros (k & t & H & _). destruct k; discriminate.
  - assert (Hrest : In p (collect_pages (i + 1) pages) <->
                    exists (k : nat) (t : string),
                      nth_error (x :: pages) (S k) = Some (Some t)
                      /\ Py.split t <> []
                      /\ p = mkPage (i + Z.of_nat (S k) + 1) (Py.strip t)).
    { rewrite IH. split; intros (k & t & H1 & H2 & H3); exists k, t;
        (split; [exact H1|split; [exact H2|]]); rewrite H3; f_equal; lia. }
    assert (Hsplit : forall P : nat -> string -> Prop,
               (exists k t, P k t) <-> (exists t, P 0%nat t) \/ (exists k t, P (S k) t)).
    { intros P. split.
      - intros ([|k] & t & H); [left; eauto|right; eauto].
      - intros [(t & H)|(k & t & H)]; eauto. }
    rewrite (Hsplit (fun k t => nth_error (x :: pages) k = Some (Some t)
                                /\ Py.split t <> []
                                /\ p = mkPage (i + Z.of_nat k + 1) (Py.strip t))).
    rewrite <- Hrest. clear Hrest Hsplit IH. simpl.
    destruct x as [t|].
    + destruct (Py.nonempty t && Py.nonempty (Py.strip t)) eqn:E.
      * apply kept_iff_word in E. simpl. rewrite Z.add_0_r.
        split; intros [H|H]; auto.
        -- left. exists t. auto.
        -- destruct H as (t' & H1 & _ & H3). injection H1 as <-. auto.
      * split; [auto|]. intros [(t' & H1 & H2 & _)|H]; [|exact H].
        injection H1 as <-. apply kept_iff_word in H2. congruence.
    + split; [auto|]. intros [(t' & H1 & _)|H]; [discriminate|exact H].
Qed.

Lemma collect_pages_above (pages : list (option string)) :
  forall i : Z, Forall (fun p => i < page_no p) (collect_pages i pages).
Proof.
  induction pages as [|x pages IH]; intros i; simpl; [constructor|].
  assert (Hrest : Forall (fun p => i < page_no p) (collect_pages (i + 1) pages)).
  { eapply Forall_impl; [|apply IH]. simpl. intros p Hp. lia. }
  destruct x as [t|]; [|exact Hrest].
  destruct (Py.nonempty t && Py.nonempty (Py.strip t)); [|exact Hrest].
  constructor; [simpl; lia|exact Hrest].
Qed.

Lemma collect_pages_increasing (pages : list (option string)) :
  forall i : Z, StronglySorted Z.lt (map page_no (collect_pages i pages)).
Proof.
  induction pages as [|x pages IH]; intros i; simpl; [constructor|].
  destruct x as [t|]; [|apply IH].
  destruct (Py.nonempty t && Py.nonempty (Py.strip t)); [|apply IH].
  simpl. constructor; [apply IH|].
  apply Forall_map. eapply Forall_impl; [|apply collect_pages_above].
  simpl. intros p Hp. exact Hp.
Qed.

(** X4. The pages kept by [process_pdf] are exactly the pages of the
    PDF whose extracted text has at least one word; each keeps its
    one-based position in the PDF as page number (pages without text are
    skipped, not renumbered) and its text stripped; the kept pages are in
    increasing page order; and stripping leaves the words of a text as
    they were. *)
Theorem X4_kept_pages (pages : list (option string)) :
  (forall p : page_entry,
      In p (collect_pages 0 pages) <->
      exists (k : nat) (t : string),
        nth_error pages k = Some (Some t)
        /\ Py.split t <> []
        /\ p = mkPage (Z.of_nat k + 1) (Py.strip t))
  /\ StronglySorted Z.lt (map page_no (collect_pages 0 pages))
  /\ (forall t : string, Py.split (Py.strip t) = Py.split t).
Proof.
  split; [|split; [apply collect_pages_increasing|apply split_strip]].
  intros p. rewrite collect_pages_in. reflexivity.
Qed.

(** ** The chunks of a document *)

(** Every chunk of a document is the chunk of a window that starts
    inside the words of one of its pages. *)
Lemma chunk_pages_in (pages_data : list page_entry) (c : chunk) :
  In c (chunk_pages pages_data) ->
  exists (p : page_entry) (start : Z),
    In p pages_data
    /\ 0 <= start < Py.len (Py.split (page_text p))
    /\ c = make_chunk (page_no p) (window chunk_size (Py.split (page_text p)) start).
Proof.
  unfold chunk_pages. rewrite chunk_pages_from, app_nil_l.
  intros H. apply in_concat in H. destruct H as (l & Hl & Hc).
  apply in_map_iff in Hl. destruct Hl as (p & <- & Hp).
  rewrite page_chunks_windows in Hc. apply in_map_iff in Hc.
  destruct Hc as (w & <- & Hw). unfold page_windows in Hw.
  apply in_map_iff in Hw. destruct Hw as (j & <- & Hj). apply in_seq in Hj.
  pose proof constants_valid as Hv.
  exists p, (Z.of_nat j * (chunk_size - overlap)).
  split; [exact Hp|split; [|reflexivity]].
  split; [unfold chunk_size, overlap; lia|].
  apply (n_windows_least chunk_size overlap); lia.
Qed.

(** X5. Every chunk stored by [process_pdf] has between 1 and 200
    words, carries the page number of one of the kept pages, and its
    text is the words of a window of that page joined by single
    spaces, with [word_count] the number of those words. *)
Theorem X5_chunk_bounds (pages_data : list page_entry) (c : chunk) :
  In c (chunk_pages pages_data) ->
  1 <= word_count c <= chunk_size
  /\ exists (p : page_entry) (start : Z),
       In p pages_data
       /\ page c = page_no p
       /\ text c = Py.join " " (Py.slice (Py.split (page_text p)) start (start + chunk_size))
       /\ word_count c = Py.len (Py.slice (Py.split (page_text p)) start (start + chunk_size)).
Proof.
  intros H. destruct (chunk_pages_in _ _ H) as (p & start & Hp & Hs & ->).
  pose proof constants_valid as Hv. split.
  - simpl. unfold window. rewrite length_slice_nonneg by lia. lia.
  - exists p, start. repeat split; try reflexivity. exact Hp.
Qed.

Lemma X5_chunk_bounds_witness :
  1 <= word_count (mkChunk "alpha beta" 1 2) <= chunk_size.
Proof.
  exact (proj1 (X5_chunk_bounds [mkPage 1 "alpha beta"] (mkChunk "alpha beta" 1 2)
                  (or_introl eq_refl))).
Defined.

(** X6. A page of [L] words gives [ceil(L / 160)] chunks, that is
    [(L + 159) / 160] in integer division; a document gives the sum
    over its pages. *)
Theorem X6_chunk_count (pg : Z) (words : list string) (pages_data : list page_entry) :
  Py.len (page_chunks pg words) = (Py.len words + 159) / 160
  /\ Py.len (chunk_pages pages_data)
     = fold_right Z.add 0
         (map (fun p => (Py.len (Py.split (page_text p)) + 159) / 160) pages_data).
Proof.
  assert (Hone : forall pg words,
             Py.len (page_chunks pg words) = (Py.len words + 159) / 160).
  { clear. intros pg words. rewrite page_chunks_windows. unfold page_windows, Py.len at 1.
    rewrite !length_map, length_seq. unfold n_windows, chunk_size, overlap.
    pose proof (len_nonneg words).
    replace (Py.len words - 0 + (200 - 40) - 1) with (Py.len words + 159) by lia.
    apply Z2Nat.id. apply Z.div_pos; lia. }
  split; [apply Hone|].
  unfold chunk_pages. rewrite chunk_pages_from, app_nil_l.
  induction pages_data as [|p ps IH]; [reflexivity|].
  rewrite map_cons, concat_cons, len_app, IH, Hone. reflexivity.
Qed.

(** ** The round trip of a stored chunk *)

(** X11. The text of every stored chunk splits back into the words it
    was joined from, so [word_count] is the number of
    whitespace-separated words in [text]. *)
Theorem X11_word_count_round_trip (pages_data : list page_entry) (c : chunk) :
  In c (chunk_pages pages_data) ->
  Py.len (Py.split (text c)) = word_count c
  /\ Py.join " " (Py.split (text c)) = text c.
Proof.
  intros H. destruct (chunk_pages_in _ _ H) as (p & start & _ & _ & ->).
  assert (Hw : Py.split (Py.join " " (window chunk_size (Py.split (page_text p)) start))
               = window chunk_size (Py.split (page_text p)) start).
  { apply split_join. apply Forall_slice.
    apply split_from_words. reflexivity. }
  simpl. rewrite Hw. split; reflexivity.
Qed.

Lemma X11_word_count_round_trip_witness :
  Py.len (Py.split "alpha beta") = 2 /\ Py.join " " (Py.split "alpha beta") = "alpha beta".
Proof.
  exact (X11_word_count_round_trip [mkPage 1 "alpha beta"] (mkChunk "alpha beta" 1 2)
           (or_introl eq_refl)).
Defined.

(** ** Order of the stored chunks *)

Lemma sorted_app {A : Type} (R : A -> A -> Prop) (l1 l2 : list A) :
  StronglySorted R l1 -> StronglySorted R l2 ->
  (forall x y, In x l1 -> In y l2 -> R x y) ->
  StronglySorted R (l1 ++ l2).
Proof.
  induction l1 as [|x l1 IH]; intros H1 H2 H; simpl; [exact H2|].
  inversion H1 as [|? ? Hs Hx]; subst.
  constructor.
  - apply IH; [exact Hs|exact H2|]. intros a b Ha Hb. apply H; [right; exact Ha|exact Hb].
  - apply Forall_app. split; [exact Hx|].
    apply Forall_forall. intros y Hy. apply H; [left; reflexivity|exact Hy].
Qed.

Lemma sorted_constant (v : Z) (l : list Z) :
  Forall (fun x => x = v) l -> StronglySorted Z.le l.
Proof.
  induction l as [|x l IH]; intros H; [constructor|].
  inversion H as [|? ? Hx Hl]; subst.
  constructor; [apply IH; exact Hl|].
  eapply Forall_impl; [|exact Hl]. simpl. intros y ->. lia.
Qed.

Lemma page_chunks_page (pg : Z) (words : list string) :
  Forall (fun x => x = pg) (map page (page_chunks pg words)).
Proof.
  rewrite page_chunks_windows, map_map. apply Forall_forall.
  intros x Hx. apply in_map_iff in Hx. destruct Hx as (w & <- & _). reflexivity.
Qed.

Lemma chunk_pages_sorted (pages_data : list page_entry) :
  StronglySorted Z.lt (map page_no pages_data) ->
  StronglySorted Z.le (map page (chunk_pages pages_data)).
Proof.
  intros H.
  assert (Hin : forall pd c, In c (chunk_pages pd) -> In (page c) (map page_no pd)).
  { intros pd c Hc. destruct (chunk_pages_in _ _ Hc) as (p & start & Hp & _ & ->).
    simpl. apply in_map. exact Hp. }
  assert (Hcons : forall p ps,
             chunk_pages (p :: ps)
             = page_chunks (page_no p) (Py.split (page_text p)) ++ chunk_pages ps).
  { intros p ps. unfold chunk_pages. rewrite !chunk_pages_from, !app_nil_l. reflexivity. }
  induction pages_data as [|p ps IH]; [constructor|].
  simpl in H. inversion H as [|? ? Hs Hp]; subst.
  rewrite Hcons, map_app. apply sorted_app.
  - apply (sorted_constant (page_no p)). apply page_chunks_page.
  - apply IH. exact Hs.
  - intros x y Hx Hy.
    pose proof (page_chunks_page (page_no p) (Py.split (page_text p))) as Hc.
    rewrite Forall_forall in Hc. rewrite (Hc x Hx).
    apply in_map_iff in Hy. destruct Hy as (c & <- & Hc').
    apply Hin in Hc'. rewrite Forall_forall in Hp. specialize (Hp _ Hc'). lia.
Qed.

(** X13. The chunks stored for a document are in page order: along
    [self.chunks] the page numbers never decrease. *)
Theorem X13_chunks_in_page_order (pages : list (option string)) :
  StronglySorted Z.le (map page (chunk_pages (collect_pages 0 pages))).
Proof. apply chunk_pages_sorted. apply collect_pages_increasing. Qed.

(** ** Results of a search *)

Lemma length_prefix (n : nat) :
  forall s : string, (String.length (Py.prefix n s) <= n)%nat.
Proof.
  unfold Py.prefix. induction n as [|n IH]; intros s.
  - destruct s; simpl; lia.
  - destruct s as [|c s]; simpl; [lia|]. specialize (IH s). lia.
Qed.

Lemma prefix_is_prefix (n : nat) :
  forall s : string, String.prefix (Py.prefix n s) s = true.
Proof.
  unfold Py.prefix. induction n as [|n IH]; intros s.
  - destruct s; reflexivity.
  - destruct s as [|c s]; simpl; [reflexivity|].
    destruct (ascii_dec c c) as [_|N]; [apply IH|elim N; reflexivity].
Qed.

(** Ranks in the list built by the loop: above the start position,
    and increasing. *)
Lemma search_loop_ranks (cs : list chunk) (hits : list (Q * Z)) :
  forall i : Z,
    Forall (fun c => i < rank c <= i + Py.len hits) (search_loop cs i hits [])
    /\ StronglySorted Z.lt (map rank (search_loop cs i hits [])).
Proof.
  induction hits as [|[s idx] hits IH]; intros i; simpl.
  - split; constructor.
  - destruct (IH (i + 1)) as [Hr Hs].
    assert (Hlen : Py.len ((s, idx) :: hits) = 1 + Py.len hits)
      by (unfold Py.len; simpl List.length; lia).
    assert (Hr' : Forall (fun c => i < rank c <= i + Py.len ((s, idx) :: hits))
                         (search_loop cs (i + 1) hits [])).
    { eapply Forall_impl; [|exact Hr]. simpl. intros c Hc. lia. }
    destruct (in_range cs idx); [|split; assumption].
    rewrite search_loop_app. simpl. split.
    + constructor; [simpl; pose proof (len_nonneg hits); lia|exact Hr'].
    + constructor; [exact Hs|]. apply Forall_map.
      eapply Forall_impl; [|exact Hr]. simpl. intros c Hc. lia.
Qed.

Lemma length_search_loop (cs : list chunk) (hits : list (Q * Z)) :
  forall i : Z, Py.len (search_loop cs i hits []) <= Py.len hits.
Proof.
  induction hits as [|[s idx] hits IH]; intros i; simpl; [unfold Py.len; simpl; lia|].
  specialize (IH (i + 1)).
  destruct (in_range cs idx); [rewrite search_loop_app, len_app|];
    unfold Py.len in *; simpl List.length in *; lia.
Qed.

(** X7. When [search] reports results, the number in the heading is the
    number of cards and is at least one; the system is ready and holds
    an index and chunks; and every card shows a chunk of the session:
    its page, its word count, and the first 400 characters of its text
    (never more than 400). *)
Theorem X7_found_cards (self : FlowRAGSystem) (query : string) (top_k n : Z)
        (results : list result_card) :
  fst (search self query top_k) = Found n results ->
  n = Py.len results
  /\ 1 <= n
  /\ is_ready self = true
  /\ index self <> None
  /\ exists cs : list chunk,
       chunks self = Some cs
       /\ Forall (fun c =>
                    (String.length (excerpt c) <= 400)%nat
                    /\ exists ch : chunk,
                         In ch cs
                         /\ card_page c = page ch
                         /\ card_word_count c = word_count ch
                         /\ excerpt c = Py.prefix 400 (text ch)
                         /\ String.prefix (excerpt c) (text ch) = true)
                 results.
Proof.
  intros H.
  destruct (search_found _ _ _ _ _ H) as (cs & hits & Hcs & Hres & Hn).
  assert (Hstate : is_ready self = true /\ index self <> None).
  { unfold search in H. destruct (is_ready self); [|discriminate].
    destruct (index self); [split; [reflexivity|discriminate]|discriminate]. }
  assert (Hpos : 1 <= n).
  { unfold search in H. destruct (is_ready self); [|discriminate].
    destruct (index self); [|discriminate].
    destruct (model self) as [enc|]; [|discriminate].
    destruct (enc [query]); [|discriminate]. rewrite Hcs in H.
    destruct (Py.truthy _) eqn:E; [|discriminate]. simpl in H.
    injection H as <- _. rewrite truthy_len in E. apply Z.ltb_lt in E. lia. }
  destruct Hstate as [Hr Hi].
  split; [exact Hn|split; [exact Hpos|split; [exact Hr|split; [exact Hi|]]]].
  exists cs. split; [exact Hcs|].
  apply Forall_forall. intros c Hc. rewrite Hres in Hc.
  destruct (search_loop_card _ _ _ _ Hc) as (j & idx & _ & Hrange & ->).
  unfold in_range in Hrange. apply andb_prop in Hrange.
  destruct Hrange as [H0 H1]. apply Z.leb_le in H0. apply Z.ltb_lt in H1.
  simpl. split; [apply length_prefix|].
  exists (chunk_at cs idx). repeat split; try reflexivity.
  - unfold chunk_at. apply nth_In. unfold Py.len in H1. lia.
  - apply prefix_is_prefix.
Qed.

Lemma X7_found_cards_witness :
  1 = Py.len [mkCard 1 1 "#28a745" Excellent 1 2 "alpha beta"] /\ 1 <= 1.
Proof.
  destruct (X7_found_cards Demo.ready "q" 1 1
              [mkCard 1 1 "#28a745" Excellent 1 2 "alpha beta"] eq_refl)
    as (Hn & Hp & _).
  split; [exact Hn|exact Hp].
Defined.

Lemma shown_ranks_scores (cs : list chunk) (results : list result_card)
      (entries : list (Z * (Q * Z))) :
  Forall2 (shows cs) results entries ->
  map rank results = map (fun entry => fst entry + 1) entries
  /\ map score results = map (fun entry => fst (snd entry)) entries.
Proof.
  induction 1 as [|c entry results entries Hc _ IH]; [split; reflexivity|].
  destruct IH as [IH1 IH2]. destruct Hc as (Hr & Hs & _).
  simpl. rewrite IH1, IH2, Hr, Hs. split; reflexivity.
Qed.

(** X8. The result numbers shown by [search] are the positions, counted
    from 1, that the hits of the cards have among all hits returned by
    the index: a hit dropped by the guard leaves a gap rather than
    renumbering the rest.  So the numbers are at least 1, at most the
    number of hits, and strictly increase down the list, and there are
    never more cards than hits. *)
Theorem X8_result_numbers (cs : list chunk) (hits : list (Q * Z))
        (self : FlowRAGSystem) (query : string) (top_k n : Z)
        (results : list result_card) :
  (map rank (search_loop cs 0 hits [])
   = map (fun entry => fst entry + 1)
         (filter (fun entry => (0 <=? snd (snd entry)) && (snd (snd entry) <? Py.len cs))
                 (Py.enumerate 0 hits))
   /\ Forall (fun c => 1 <= rank c <= Py.len hits) (search_loop cs 0 hits [])
   /\ StronglySorted Z.lt (map rank (search_loop cs 0 hits []))
   /\ Py.len (search_loop cs 0 hits []) <= Py.len hits)
  /\ (fst (search self query top_k) = Found n results ->
      Forall (fun c => 1 <= rank c) results
      /\ StronglySorted Z.lt (map rank results)).
Proof.
  split.
  - destruct (search_loop_ranks cs hits 0) as [Hr Hs].
    split; [|split; [|split; [exact Hs|apply length_search_loop]]].
    + apply (shown_ranks_scores cs). apply search_loop_enumerated.
    + eapply Forall_impl; [|exact Hr]. simpl. intros c Hc. lia.
  - intros H. destruct (search_found _ _ _ _ _ H) as (cs' & hits' & _ & -> & _).
    destruct (search_loop_ranks cs' hits' 0) as [Hr Hs].
    split; [|exact Hs].
    eapply Forall_impl; [|exact Hr]. simpl. intros c Hc. lia.
Qed.

(** ** The status line after a call *)

(** X9. After a successful [process_pdf] the status line shows the
    name of the file, the chunk count that the success message
    reported, and the number of rows of the new index; except that a
    file whose name is empty leaves the status at no-document-yet. *)
Theorem X9_status_after_success
        (ext : Externals)
        (self : FlowRAGSystem) (pdf_file : UploadedFile) (n_pages n_chunks : Z) :
  snd (process_pdf ext self pdf_file) = Processed n_pages n_chunks ->
  exists ix : VectorIndex.t,
    index (fst (process_pdf ext self pdf_file)) = Some ix
    /\ update_status (fst (process_pdf ext self pdf_file))
       = if Py.nonempty (name pdf_file)
         then FileChunksVectors (name pdf_file) n_chunks (VectorIndex.ntotal ix)
         else NoDocumentYet.
Proof.
  destruct (PdfReader ext (read pdf_file)) as [pages|e] eqn:Hp;
    [|unfold process_pdf; rewrite Hp; discriminate].
  destruct (Py.truthy (collect_pages 0 pages)) eqn:E;
    [|unfold process_pdf; rewrite Hp, E; simpl;
      destruct (unlink ext _); discriminate].
  rewrite (process_pdf_with_text ext self pdf_file pages Hp E). cbv zeta.
  pose proof (chunk_pages_nonempty pages E) as Hpos.
  apply Z.gtb_lt in Hpos. apply Z.ltb_lt in Hpos.
  destruct self as [m ix cs cf rd]; simpl.
  destruct m as [enc|]; [|discriminate].
  destruct (enc _) as [emb|e]; [|discriminate].
  destruct (normalize_L2 ext emb) as [nm|e]; [|discriminate].
  destruct (index_add_raises ext _ nm); [discriminate|].
  destruct (unlink ext _); [|discriminate].
  simpl. intros H. injection H as _ <-.
  eexists. split; [reflexivity|].
  unfold update_status. simpl.
  destruct (Py.nonempty (name pdf_file)); [|reflexivity].
  rewrite truthy_len, Hpos. reflexivity.
Qed.

Lemma X9_status_after_success_witness :
  exists ix : VectorIndex.t,
    index Demo.ready = Some ix
    /\ update_status Demo.ready = FileChunksVectors "a.pdf" 1 (VectorIndex.ntotal ix).
Proof.
  exact (X9_status_after_success Demo.ext Demo.booted Demo.doc_a
           1 1 eq_refl).
Defined.



(** ** A system without a model *)

Lemma never_reaches_without_model
      (PdfReader : string -> result (list (option string)))
      (files : list UploadedFile) :
  forallb (fun f => negb (reaches_index_build PdfReader None f)) files = true.
Proof.
  induction files as [|f files IH]; [reflexivity|].
  simpl. rewrite IH. unfold reaches_index_build.
  destruct (PdfReader (read f)); [rewrite andb_false_r|]; reflexivity.
Qed.

(** X10. When loading the model fails, [initialize] returns the error
    and leaves the system as it was; from then on every [process_pdf]
    call fails, whatever the file, and every [search] answers with the
    process-a-document-first message without calling anything. *)
Theorem X10_failed_initialize
        (ext : Externals) (e : string)
        (files : list UploadedFile) (query : string) (top_k : Z) :
  initialize (Raise e) new_system = (new_system, InitError e)
  /\ forallb is_failure (snd (process_all ext new_system files)) = true
  /\ search (fst (process_all ext new_system files)) query top_k
     = (NotReady, []).
Proof.
  split; [reflexivity|].
  destruct (process_all_no_index_build ext None files new_system eq_refl
              (never_reaches_without_model (PdfReader ext) files)) as [Hf Hi].
  split; [exact Hf|].
  apply search_without_index. rewrite Hi. reflexivity.
Qed.

(** ** External calls of a query *)

(** X12. [search] calls nothing when the system is not ready or has no
    index (or, being ready with an index, has no model); otherwise it
    calls the embedder once, on exactly the query text; when the
    embedder raises, that is the only call and its error is returned;
    when it returns, the index is searched once, with [top_k] as it was
    given (no clamping). *)
Theorem X12_search_calls (self : FlowRAGSystem) (query : string) (top_k : Z) :
  (is_ready self = false \/ index self = None ->
   search self query top_k = (NotReady, []))
  /\ (is_ready self = true -> index self <> None -> model self = None ->
      snd (search self query top_k) = [])
  /\ (forall (encode : SentenceTransformer) (e : string),
        is_ready self = true -> index self <> None ->
        model self = Some encode -> encode [query] = Raise e ->
        search self query top_k = (SearchError e, [CallEncode [query]]))
  /\ (forall (encode : SentenceTransformer) (query_embedding : ndarray),
        is_ready self = true -> index self <> None ->
        model self = Some encode -> encode [query] = Ok query_embedding ->
        snd (search self query top_k) = [CallEncode [query]; CallIndexSearch top_k]).
Proof.
  unfold search. destruct self as [m ix cs cf rd]; simpl.
  split; [|split; [|split]].
  - intros [-> | ->]; [reflexivity|]. destruct rd; reflexivity.
  - intros -> Hix ->. destruct ix; [reflexivity|elim Hix; reflexivity].
  - intros enc e -> Hix -> He. destruct ix; [|elim Hix; reflexivity].
    rewrite He. reflexivity.
  - intros enc qe -> Hix -> He. destruct ix as [ix|]; [|elim Hix; reflexivity].
    rewrite He. destruct cs as [cs|].
    + destruct (Py.truthy _); reflexivity.
    + destruct (VectorIndex.search _ _ _); reflexivity.
Qed.

(** ** An invariant of the system object *)

Section Invariant.

Variable ext : Externals.

Lemma process_pdf_consistent (self : FlowRAGSystem) (pdf_file : UploadedFile) :
  consistent self ->
  consistent (fst (process_pdf ext self pdf_file)).
Proof.
  intros [Hready Hindex].
  destruct (stops_before_chunking (PdfReader ext) pdf_file) eqn:E.
  - destruct (process_pdf_stops_early ext self pdf_file E) as (_ & Hc & Hi).
    destruct (process_pdf_model ext self pdf_file) as [Hm Hr].
    unfold consistent. rewrite Hm, Hr, Hc, Hi. split; assumption.
  - unfold stops_before_chunking in E.
    destruct (PdfReader ext (read pdf_file)) as [pages|e] eqn:Hp; [|discriminate].
    apply negb_false_iff in E.
    rewrite (process_pdf_with_text ext self pdf_file pages Hp E). cbv zeta.
    pose proof (chunk_pages_nonempty pages E) as Hpos. apply Z.gtb_lt in Hpos.
    assert (Hne : chunk_pages (collect_pages 0 pages) <> []).
    { intros Hnil. rewrite Hnil in Hpos. unfold Py.len in Hpos. simpl in Hpos. lia. }
    destruct self as [m ix cs cf rd]; unfold consistent in *; simpl in *.
    destruct m as [enc|].
    + assert (Hsome : Some enc <> None) by discriminate.
      destruct (enc _) as [emb|e];
        [destruct (normalize_L2 ext emb) as [nm|e];
         [destruct (index_add_raises ext _ nm); [|destruct (unlink ext _)]|]|];
        simpl; (split; [exact Hready|]); intros _; (split; [exact Hsome|]);
        eexists; split; try reflexivity; exact Hne.
    + simpl. split; [exact Hready|].
      intros Hix. destruct (Hindex Hix) as [Hm _]. elim Hm. reflexivity.
Qed.

Lemma process_all_consistent (files : list UploadedFile) :
  forall self : FlowRAGSystem,
    consistent self ->
    consistent (fst (process_all ext self files)).
Proof.
  induction files as [|f files IH]; intros self H; [exact H|].
  rewrite process_all_cons. simpl. apply IH. apply process_pdf_consistent. exact H.
Qed.

Lemma initialize_consistent (load : result SentenceTransformer) :
  consistent (fst (initialize load new_system)).
Proof.
  destruct load as [m|e]; simpl; split.
  - split; [discriminate|reflexivity].
  - intros H. elim H. reflexivity.
  - split; [discriminate|]. intros H. elim H. reflexivity.
  - intros H. elim H. reflexivity.
Qed.

Lemma search_error_consistent (self : FlowRAGSystem) (query : string) (top_k : Z)
      (e : string) :
  consistent self ->
  fst (search self query top_k) = SearchError e ->
  exists encode : SentenceTransformer,
    model self = Some encode /\ encode [query] = Raise e.
Proof.
  intros [_ Hindex]. unfold search.
  destruct (is_ready self); [|discriminate].
  destruct (index self) as [ix|] eqn:Hix; [|discriminate].
  destruct (Hindex ltac:(discriminate)) as [Hm (cs & Hcs & _)].
  destruct (model self) as [enc|]; [|elim Hm; reflexivity].
  destruct (enc [query]) as [qe|e'] eqn:E.
  - rewrite Hcs. destruct (Py.truthy _); discriminate.
  - simpl. intros H. injection H as <-. exists enc. split; [reflexivity|exact E].
Qed.

(** X15. In every state reached from start-up by [initialize] and any
    sequence of [process_pdf] calls: the system is ready exactly when it
    has a model; whenever it has an index it also has a model and a
    non-empty chunk list; hence the only error [search] can return is
    the one raised by the embedder on the query (never a missing model
    or missing chunks). *)
Theorem X15_reachable_states (load : result SentenceTransformer)
        (files : list UploadedFile) (query : string) (top_k : Z) :
  let st := fst (process_all ext
                   (fst (initialize load new_system)) files) in
  (is_ready st = true <-> model st <> None)
  /\ (index st <> None ->
      model st <> None /\ exists cs : list chunk, chunks st = Some cs /\ cs <> [])
  /\ (forall e : string,
        fst (search st query top_k) = SearchError e ->
        exists encode : SentenceTransformer,
          model st = Some encode /\ encode [query] = Raise e).
Proof.
  intros st.
  assert (H : consistent st).
  { apply process_all_consistent. apply initialize_consistent. }
  destruct H as [H1 H2]. split; [exact H1|split; [exact H2|]].
  intros e. apply search_error_consistent. split; assumption.
Qed.

End Invariant.

(** ** The guard of the search loop *)

Lemma search_loop_scores (cs : list chunk) (hits : list (Q * Z)) :
  forall i : Z,
    map score (search_loop cs i hits [])
    = map fst (filter (fun h => in_range cs (snd h)) hits).
Proof.
  induction hits as [|[s idx] hits IH]; intros i; simpl; [reflexivity|].
  destruct (in_range cs idx).
  - rewrite search_loop_app. simpl. rewrite IH. reflexivity.
  - apply IH.
Qed.

Lemma search_loop_padding (cs : list chunk) (pad : list (Q * Z)) :
  Forall (fun h => snd h < 0) pad ->
  forall i : Z, search_loop cs i pad [] = [].
Proof.
  induction pad as [|[s idx] pad IH]; intros H i; simpl; [reflexivity|].
  inversion H as [|? ? Hh Hp]; subst. simpl in Hh.
  unfold in_range. replace (0 <=? idx) with false by (symmetry; apply Z.leb_gt; lia).
  simpl. apply IH. exact Hp.
Qed.

Lemma search_loop_hits_app (cs : list chunk) (hits1 hits2 : list (Q * Z)) :
  forall i : Z,
    search_loop cs i (hits1 ++ hits2) []
    = search_loop cs i hits1 [] ++ search_loop cs (i + Py.len hits1) hits2 [].
Proof.
  induction hits1 as [|[s idx] hits1 IH]; intros i.
  - simpl. unfold Py.len. simpl. rewrite Z.add_0_r. reflexivity.
  - assert (E : i + Py.len ((s, idx) :: hits1) = i + 1 + Py.len hits1)
      by (unfold Py.len; simpl List.length; lia).
    rewrite E. simpl. destruct (in_range cs idx).
    + rewrite search_loop_app, (search_loop_app cs hits1), IH, app_assoc. reflexivity.
    + apply IH.
Qed.

(** X16. The guard [0 <= idx < len(self.chunks)] only filters: the
    scores of the cards are the scores of the hits whose row index is in
    range, in the order of the hits; and hits with a negative row index
    at the end of the list (the padding an index returns when it holds
    fewer than [top_k] rows) change nothing. *)
Theorem X16_guard_filters (cs : list chunk) (hits pad : list (Q * Z)) :
  map score (search_loop cs 0 hits [])
  = map fst (filter (fun h => in_range cs (snd h)) hits)
  /\ (Forall (fun h => snd h < 0) pad ->
      search_loop cs 0 (hits ++ pad) [] = search_loop cs 0 hits []).
Proof.
  split; [apply search_loop_scores|].
  intros H. rewrite search_loop_hits_app, (search_loop_padding cs pad H), app_nil_r.
  reflexivity.
Qed.

Lemma X16_guard_filters_witness :
  search_loop [mkChunk "alpha beta" 1 2] 0 ([(1%Q, 0)] ++ [((-1)%Q, -1); ((-1)%Q, -1)]) []
  = search_loop [mkChunk "alpha beta" 1 2] 0 [(1%Q, 0)] [].
Proof.
  refine (proj2 (X16_guard_filters [mkChunk "alpha beta" 1 2] [(1%Q, 0)]
                   [((-1)%Q, -1); ((-1)%Q, -1)]) _).
  repeat constructor.
Defined.
